(** * Azure SQL DB deployment wizard: the Azure settings page

    A shallow embedding of
    - [AzureSettingsPage] (pages/azureSettingsPage.ts of the
      deployAzureSQLDBWizard): the cascading account / subscription /
      server dropdowns, the form validator and the navigation validator;
    - [DeployAzureSQLDBWizard.getRequest];
    - [isNotebookContent] of the arc extension's utilities.

    The page is stateful and talks to the outside (credential store,
    resource provider, HTTP), so its methods are written in a small monad
    that threads the page state, may throw, and records every outside call
    together with the page state at the moment the call is issued. *)

From Stdlib Require Import ZArith Ascii String List Sorted Permutation Lia.
From stdpp Require Import base option gmap strings list.
Import ListNotations.
Set Warnings "-register-all".
Local Open Scope string_scope.
Local Open Scope Z_scope.

(** ** JavaScript strings and the two regular expressions

    Strings are sequences of 8-bit units holding UTF-8 text.  The regular
    expressions of the page only use literal ASCII text and [.], which
    matches every character but a line terminator: LF, CR, U+2028 and
    U+2029 (the last two are the byte sequences E2 80 A8 and E2 80 A9). *)

Module JsString.

Fixpoint startsWith (p s : string) : bool :=
  match p, s with
  | EmptyString, _ => true
  | String a p', String b s' => if Ascii.eqb a b then startsWith p' s' else false
  | String _ _, EmptyString => false
  end.

Fixpoint skip (n : nat) (s : string) : string :=
  match n, s with
  | O, _ => s
  | S n', String _ s' => skip n' s'
  | S _, EmptyString => EmptyString
  end.

Definition LS : string :=
  String (ascii_of_nat 226) (String (ascii_of_nat 128) (String (ascii_of_nat 168) EmptyString)).
Definition PS : string :=
  String (ascii_of_nat 226) (String (ascii_of_nat 128) (String (ascii_of_nat 169) EmptyString)).

(** Does a line terminator start here? *)
Definition lineTerminator (s : string) : bool :=
  startsWith (String (ascii_of_nat 10) EmptyString) s
  || startsWith (String (ascii_of_nat 13) EmptyString) s
  || startsWith LS s || startsWith PS s.

(** [^(.*?)LIT]: the lazy group grows one character at a time from the
    start of the string, never over a line terminator, until [LIT]
    follows.  The result is what is left after the match. *)
Fixpoint matchLazyPrefix (lit s : string) : option string :=
  if startsWith lit s then Some (skip (String.length lit) s)
  else if lineTerminator s then None
  else match s with
       | EmptyString => None
       | String _ s' => matchLazyPrefix lit s'
       end.

(** [.*] taken greedily: the rest of the string from the first line
    terminator on is what the match leaves. *)
Fixpoint afterDotStar (s : string) : string :=
  if lineTerminator s then s
  else match s with
       | EmptyString => EmptyString
       | String _ s' => afterDotStar s'
       end.

(** [s.replace(RegExp('^(.*?)LIT'), '')] *)
Definition replaceLazyPrefix (lit s : string) : string :=
  match matchLazyPrefix lit s with
  | Some rest => rest
  | None => s
  end.

(** [s.replace(RegExp('LIT.*'), '')]: the leftmost occurrence of [LIT]
    and the rest of its line are removed. *)
Fixpoint replaceFromLiteral (lit s : string) : string :=
  if startsWith lit s then afterDotStar (skip (String.length lit) s)
  else match s with
       | EmptyString => EmptyString
       | String a s' => String a (replaceFromLiteral lit s')
       end.

(** Template literals print an undefined value as the text undefined. *)
Definition interpolate (o : option string) : string :=
  match o with
  | Some s => s
  | None => "undefined"
  end.

End JsString.

(** The expression both writers of [azureResouceGroup] apply to the name
    (the resource id) of the selected server:
    [name.replace(RegExp('^(.*?)/resourceGroups/'), '').replace(RegExp('/providers/.*'), '')] *)
Definition extractResourceGroup (name : string) : string :=
  JsString.replaceFromLiteral "/providers/"
    (JsString.replaceLazyPrefix "/resourceGroups/" name).

(** ** Data of the page *)

(** [azdata.CategoryValue] *)
Record CategoryValue := { displayName : string; name : string }.

(** [azdata.Account], as far as the page reads it: [displayInfo.displayName]
    and the account key. *)
Record Account := { account_displayName : string; account_key : string }.

(** [azureResource.AzureResourceSubscription] *)
Record Subscription := { sub_id : string; sub_name : string; sub_tenant : option string }.

(** What [getAccountSecurityToken] resolves to; the wizard reads [.token]. *)
Record Token := { token : string }.

(** One element of [response.data.value] of the server list. *)
Record ServerEntry := { srv_name : string; srv_id : string }.

(** An axios response: the status and [data.value] ([None] when the body has
    no [value], as the error bodies of the management API). *)
Record AxiosResponse := { status : Z; data_value : option (list ServerEntry) }.

(** A dropdown component: the candidate list [values] and the current
    [value] (undefined is [None]). *)
Record DropDown := { values : list CategoryValue; value : option CategoryValue }.

(** The fields of [DeployAzureSQLDBWizardModel] the page writes. *)
Record WizardModel := {
  azureAccount : option Account;
  azureSubscription : option string;
  azureSubscriptionDisplayName : option string;
  securityToken : option Token;
  azureServerName : option string;
  azureResouceGroup : option string
}.

(** The page: its three dropdowns with the [loading] flag of their loaders,
    the two maps, the wizard's model, the message the wizard shows, and
    [liveValidation]. *)
Record Page := {
  _azureAccountsDropdown : DropDown;
  _azureAccountsLoader : bool;
  _azureSubscriptionsDropdown : DropDown;
  _azureSubscriptionLoader : bool;
  _serverGroupDropdown : DropDown;
  _serverGroupLoader : bool;
  _accountsMap : gmap string Account;
  _subscriptionsMap : gmap string Subscription;
  model : WizardModel;
  message : string;
  liveValidation : bool
}.

Definition emptyDropDown : DropDown := {| values := []; value := None |}.

Definition emptyModel : WizardModel :=
  {| azureAccount := None; azureSubscription := None;
     azureSubscriptionDisplayName := None; securityToken := None;
     azureServerName := None; azureResouceGroup := None |}.

(** The page as its constructor and [initialize] leave it, before the first
    load. *)
Definition initialPage : Page :=
  {| _azureAccountsDropdown := emptyDropDown; _azureAccountsLoader := false;
     _azureSubscriptionsDropdown := emptyDropDown; _azureSubscriptionLoader := false;
     _serverGroupDropdown := emptyDropDown; _serverGroupLoader := false;
     _accountsMap := ∅; _subscriptionsMap := ∅;
     model := emptyModel; message := EmptyString; liveValidation := false |}.

(** Field updates. *)
Definition with_azureAccountsDropdown (f : DropDown -> DropDown) (p : Page) : Page :=
  {| _azureAccountsDropdown := f (_azureAccountsDropdown p);
     _azureAccountsLoader := _azureAccountsLoader p;
     _azureSubscriptionsDropdown := _azureSubscriptionsDropdown p;
     _azureSubscriptionLoader := _azureSubscriptionLoader p;
     _serverGroupDropdown := _serverGroupDropdown p;
     _serverGroupLoader := _serverGroupLoader p;
     _accountsMap := _accountsMap p; _subscriptionsMap := _subscriptionsMap p;
     model := model p; message := message p; liveValidation := liveValidation p |}.

Definition with_azureAccountsLoader (b : bool) (p : Page) : Page :=
  {| _azureAccountsDropdown := _azureAccountsDropdown p;
     _azureAccountsLoader := b;
     _azureSubscriptionsDropdown := _azureSubscriptionsDropdown p;
     _azureSubscriptionLoader := _azureSubscriptionLoader p;
     _serverGroupDropdown := _serverGroupDropdown p;
     _serverGroupLoader := _serverGroupLoader p;
     _accountsMap := _accountsMap p; _subscriptionsMap := _subscriptionsMap p;
     model := model p; message := message p; liveValidation := liveValidation p |}.

Definition with_azureSubscriptionsDropdown (f : DropDown -> DropDown) (p : Page) : Page :=
  {| _azureAccountsDropdown := _azureAccountsDropdown p;
     _azureAccountsLoader := _azureAccountsLoader p;
     _azureSubscriptionsDropdown := f (_azureSubscriptionsDropdown p);
     _azureSubscriptionLoader := _azureSubscriptionLoader p;
     _serverGroupDropdown := _serverGroupDropdown p;
     _serverGroupLoader := _serverGroupLoader p;
     _accountsMap := _accountsMap p; _subscriptionsMap := _subscriptionsMap p;
     model := model p; message := message p; liveValidation := liveValidation p |}.

Definition with_azureSubscriptionLoader (b : bool) (p : Page) : Page :=
  {| _azureAccountsDropdown := _azureAccountsDropdown p;
     _azureAccountsLoader := _azureAccountsLoader p;
     _azureSubscriptionsDropdown := _azureSubscriptionsDropdown p;
     _azureSubscriptionLoader := b;
     _serverGroupDropdown := _serverGroupDropdown p;
     _serverGroupLoader := _serverGroupLoader p;
     _accountsMap := _accountsMap p; _subscriptionsMap := _subscriptionsMap p;
     model := model p; message := message p; liveValidation := liveValidation p |}.

Definition with_serverGroupDropdown (f : DropDown -> DropDown) (p : Page) : Page :=
  {| _azureAccountsDropdown := _azureAccountsDropdown p;
     _azureAccountsLoader := _azureAccountsLoader p;
     _azureSubscriptionsDropdown := _azureSubscriptionsDropdown p;
     _azureSubscriptionLoader := _azureSubscriptionLoader p;
     _serverGroupDropdown := f (_serverGroupDropdown p);
     _serverGroupLoader := _serverGroupLoader p;
     _accountsMap := _accountsMap p; _subscriptionsMap := _subscriptionsMap p;
     model := model p; message := message p; liveValidation := liveValidation p |}.

Definition with_serverGroupLoader (b : bool) (p : Page) : Page :=
  {| _azureAccountsDropdown := _azureAccountsDropdown p;
     _azureAccountsLoader := _azureAccountsLoader p;
     _azureSubscriptionsDropdown := _azureSubscriptionsDropdown p;
     _azureSubscriptionLoader := _azureSubscriptionLoader p;
     _serverGroupDropdown := _serverGroupDropdown p;
     _serverGroupLoader := b;
     _accountsMap := _accountsMap p; _subscriptionsMap := _subscriptionsMap p;
     model := model p; message := message p; liveValidation := liveValidation p |}.

Definition with_accountsMap (f : gmap string Account -> gmap string Account) (p : Page) : Page :=
  {| _azureAccountsDropdown := _azureAccountsDropdown p;
     _azureAccountsLoader := _azureAccountsLoader p;
     _azureSubscriptionsDropdown := _azureSubscriptionsDropdown p;
     _azureSubscriptionLoader := _azureSubscriptionLoader p;
     _serverGroupDropdown := _serverGroupDropdown p;
     _serverGroupLoader := _serverGroupLoader p;
     _accountsMap := f (_accountsMap p); _subscriptionsMap := _subscriptionsMap p;
     model := model p; message := message p; liveValidation := liveValidation p |}.

Definition with_subscriptionsMap
    (f : gmap string Subscription -> gmap string Subscription) (p : Page) : Page :=
  {| _azureAccountsDropdown := _azureAccountsDropdown p;
     _azureAccountsLoader := _azureAccountsLoader p;
     _azureSubscriptionsDropdown := _azureSubscriptionsDropdown p;
     _azureSubscriptionLoader := _azureSubscriptionLoader p;
     _serverGroupDropdown := _serverGroupDropdown p;
     _serverGroupLoader := _serverGroupLoader p;
     _accountsMap := _accountsMap p; _subscriptionsMap := f (_subscriptionsMap p);
     model := model p; message := message p; liveValidation := liveValidation p |}.

Definition with_model (f : WizardModel -> WizardModel) (p : Page) : Page :=
  {| _azureAccountsDropdown := _azureAccountsDropdown p;
     _azureAccountsLoader := _azureAccountsLoader p;
     _azureSubscriptionsDropdown := _azureSubscriptionsDropdown p;
     _azureSubscriptionLoader := _azureSubscriptionLoader p;
     _serverGroupDropdown := _serverGroupDropdown p;
     _serverGroupLoader := _serverGroupLoader p;
     _accountsMap := _accountsMap p; _subscriptionsMap := _subscriptionsMap p;
     model := f (model p); message := message p; liveValidation := liveValidation p |}.

Definition with_message (s : string) (p : Page) : Page :=
  {| _azureAccountsDropdown := _azureAccountsDropdown p;
     _azureAccountsLoader := _azureAccountsLoader p;
     _azureSubscriptionsDropdown := _azureSubscriptionsDropdown p;
     _azureSubscriptionLoader := _azureSubscriptionLoader p;
     _serverGroupDropdown := _serverGroupDropdown p;
     _serverGroupLoader := _serverGroupLoader p;
     _accountsMap := _accountsMap p; _subscriptionsMap := _subscriptionsMap p;
     model := model p; message := s; liveValidation := liveValidation p |}.

Definition with_liveValidation (b : bool) (p : Page) : Page :=
  {| _azureAccountsDropdown := _azureAccountsDropdown p;
     _azureAccountsLoader := _azureAccountsLoader p;
     _azureSubscriptionsDropdown := _azureSubscriptionsDropdown p;
     _azureSubscriptionLoader := _azureSubscriptionLoader p;
     _serverGroupDropdown := _serverGroupDropdown p;
     _serverGroupLoader := _serverGroupLoader p;
     _accountsMap := _accountsMap p; _subscriptionsMap := _subscriptionsMap p;
     model := model p; message := message p; liveValidation := b |}.

Definition set_azureAccount (a : option Account) (m : WizardModel) : WizardModel :=
  {| azureAccount := a; azureSubscription := azureSubscription m;
     azureSubscriptionDisplayName := azureSubscriptionDisplayName m;
     securityToken := securityToken m; azureServerName := azureServerName m;
     azureResouceGroup := azureResouceGroup m |}.

Definition set_azureSubscription (s : option string) (m : WizardModel) : WizardModel :=
  {| azureAccount := azureAccount m; azureSubscription := s;
     azureSubscriptionDisplayName := azureSubscriptionDisplayName m;
     securityToken := securityToken m; azureServerName := azureServerName m;
     azureResouceGroup := azureResouceGroup m |}.

Definition set_azureSubscriptionDisplayName (s : option string) (m : WizardModel) : WizardModel :=
  {| azureAccount := azureAccount m; azureSubscription := azureSubscription m;
     azureSubscriptionDisplayName := s;
     securityToken := securityToken m; azureServerName := azureServerName m;
     azureResouceGroup := azureResouceGroup m |}.

Definition set_securityToken (t : option Token) (m : WizardModel) : WizardModel :=
  {| azureAccount := azureAccount m; azureSubscription := azureSubscription m;
     azureSubscriptionDisplayName := azureSubscriptionDisplayName m;
     securityToken := t; azureServerName := azureServerName m;
     azureResouceGroup := azureResouceGroup m |}.

Definition set_azureServerName (s : option string) (m : WizardModel) : WizardModel :=
  {| azureAccount := azureAccount m; azureSubscription := azureSubscription m;
     azureSubscriptionDisplayName := azureSubscriptionDisplayName m;
     securityToken := securityToken m; azureServerName := s;
     azureResouceGroup := azureResouceGroup m |}.

Definition set_azureResouceGroup (s : option string) (m : WizardModel) : WizardModel :=
  {| azureAccount := azureAccount m; azureSubscription := azureSubscription m;
     azureSubscriptionDisplayName := azureSubscriptionDisplayName m;
     securityToken := securityToken m; azureServerName := azureServerName m;
     azureResouceGroup := s |}.

(** ** The host's dropdown component *)

(** Modelled from the spec: the dropdown component of the host UI
    ([azdata.DropDownComponent.updateProperties] with a [values] property)
    is not part of these sources.  Section 4.3: the candidate list replaces
    the field's displayed options and the default (first) selection becomes
    the current one; with no candidate there is no current value. *)
Definition updateProperties_values (vs : list CategoryValue) (d : DropDown) : DropDown :=
  {| values := vs; value := head vs |}.

(** Modelled from the spec: [WizardBase.addDropdownValues] is not part of
    these sources; it hands the candidate list to the dropdown, as above. *)
Definition addDropdownValues (vs : list CategoryValue) (d : DropDown) : DropDown :=
  updateProperties_values vs d.

(** The user picks an entry of the list: the host stores it as the current
    value (and then fires [onValueChanged] with its display name). *)
Definition selectValue (cv : CategoryValue) (d : DropDown) : DropDown :=
  {| values := values d; value := Some cv |}.

(** ** Outside calls, exceptions and the page monad *)

Inductive exn :=
| TypeError                      (* a property of undefined or null was read *)
| SyntaxError                    (* JSON.parse refused the text *)
| Rejected (reason : string)      (* an outside promise was rejected *)
| AxiosError (st : Z).            (* axios refused the response status *)

(** What the network gives back for a GET. *)
Inductive TransportOutcome :=
| NetworkError (reason : string)
| Delivered (r : AxiosResponse).

(** The outside of the page during one run of a handler: the answers of the
    credential store, the resource provider and the network, and the two
    locale functions of the JavaScript engine. *)
Record Env := {
  getAllAccounts : exn + list Account;
  executeCommand : string -> exn + unit;
  getSubscriptions : option Account -> exn + option (list Subscription);
  getAccountSecurityToken : option Account -> option string -> exn + Token;
  transport : string -> list (string * string) -> TransportOutcome;
  toLocaleLowerCase : string -> string;
  localeCompare : string -> string -> Z
}.

Inductive Call :=
| CallGetAllAccounts
| CallExecuteCommand (command : string)
| CallGetAzurecoreApi
| CallGetSubscriptions (account : option Account)
| CallGetAccountSecurityToken (account : option Account) (tenant : option string)
| CallAxiosGet (url : string) (headers : list (string * string)).

(** An outside call with the page as it is when the call is issued. *)
Record Event := { ev_call : Call; ev_page : Page }.

Record Outcome (A : Type) := {
  out_trace : list Event;
  out_page : Page;
  out_result : exn + A
}.
Arguments out_trace {A} _.
Arguments out_page {A} _.
Arguments out_result {A} _.

Definition M (A : Type) : Type := Env -> Page -> Outcome A.

Definition ret {A} (x : A) : M A :=
  fun _ p => {| out_trace := []; out_page := p; out_result := inr x |}.

Definition throw {A} (e : exn) : M A :=
  fun _ p => {| out_trace := []; out_page := p; out_result := inl e |}.

Definition bind {A B} (m : M A) (k : A -> M B) : M B :=
  fun e p =>
    let o := m e p in
    match out_result o with
    | inl ex => {| out_trace := out_trace o; out_page := out_page o; out_result := inl ex |}
    | inr x =>
        let o' := k x e (out_page o) in
        {| out_trace := out_trace o ++ out_trace o';
           out_page := out_page o';
           out_result := out_result o' |}
    end.

Declare Scope page_scope.
Delimit Scope page_scope with page.
Notation "x <- c1 ;; c2" := (bind c1 (fun x => c2))
  (at level 100, c1 at next level, right associativity) : page_scope.
Notation "c1 ;; c2" := (bind c1 (fun _ => c2))
  (at level 100, right associativity) : page_scope.
Local Open Scope page_scope.

Definition get : M Page :=
  fun _ p => {| out_trace := []; out_page := p; out_result := inr p |}.

Definition ask : M Env :=
  fun e p => {| out_trace := []; out_page := p; out_result := inr e |}.

Definition modify (f : Page -> Page) : M unit :=
  fun _ p => {| out_trace := []; out_page := f p; out_result := inr tt |}.

(** [await] of an outside call: the call is recorded, then its answer is
    the result or the exception. *)
Definition await {A} (c : Call) (answer : Env -> exn + A) : M A :=
  fun e p => {| out_trace := [ {| ev_call := c; ev_page := p |} ];
                out_page := p; out_result := answer e |}.

(** An [async] method called without [await]: the caller goes on whatever
    happens in it; a rejection stays unhandled.  The handlers are run one at
    a time here, so the callee's effects simply follow. *)
Definition spawn (m : M unit) : M unit :=
  fun e p =>
    let o := m e p in
    {| out_trace := out_trace o; out_page := out_page o; out_result := inr tt |}.

(** Reading a property of a value that may be undefined. *)
Definition defined {A} (o : option A) : M A :=
  match o with
  | Some x => ret x
  | None => throw TypeError
  end.

(** ** [Array.prototype.sort] and [join] *)

Section ArraySort.
Context {A : Type} (compareFn : A -> A -> Z).

Fixpoint insertSorted (x : A) (l : list A) : list A :=
  match l with
  | [] => [x]
  | y :: l' => if compareFn x y <=? 0 then x :: y :: l' else y :: insertSorted x l'
  end.

(** The sort is stable; for a consistent comparator the sorted stable
    arrangement is unique, and this is it: every element goes in front
    of the first later element that does not compare below it. *)
Definition Array_sort (l : list A) : list A := foldr insertSorted [] l.
End ArraySort.

Fixpoint join (sep : string) (l : list string) : string :=
  match l with
  | [] => EmptyString
  | [s] => s
  | s :: l' => s ++ sep ++ join sep l'
  end.

Definition newline : string := String (ascii_of_nat 10) EmptyString.

(** ** [DeployAzureSQLDBWizard] *)

(** axios settles a delivered response through [validateStatus]: the
    promise resolves when there is no status, no validator, or the
    validator accepts the status, and is rejected otherwise.  A request that
    gets no response is rejected. *)
Definition axios_settle (validateStatus : option (Z -> bool)) (t : TransportOutcome)
  : exn + AxiosResponse :=
  match t with
  | NetworkError reason => inl (Rejected reason)
  | Delivered r =>
      if (status r =? 0)
         || match validateStatus with
            | None => true
            | Some valid => valid (status r)
            end
      then inr r
      else inl (AxiosError (status r))
  end.

Definition axios_get (url : string) (headers : list (string * string))
    (validateStatus : option (Z -> bool)) : M AxiosResponse :=
  await (CallAxiosGet url headers)
        (fun e => axios_settle validateStatus (transport e url headers)).

(** axios' default validator: 2xx only. *)
Definition defaultValidateStatus (st : Z) : bool := (200 <=? st) && (st <? 300).

Definition getRequest (url : string) : M AxiosResponse :=
  p <- get ;;
  tok <- defined (securityToken (model p)) ;;
  let headers := [ ("Content-Type", "application/json");
                   ("Authorization", "Bearer " ++ token tok) ] in
  response <- axios_get url headers (Some (fun _ => true)) ;;
  ret response.

(** [showErrorMessage] of the wizard: the text the wizard displays. *)
Definition showErrorMessage (s : string) : M unit := modify (with_message s).

(** ** [AzureSettingsPage] *)

Definition noServersFound : CategoryValue :=
  {| displayName := "No servers found"; name := EmptyString |}.

Definition serverCategoryValue (v : ServerEntry) : CategoryValue :=
  {| displayName := srv_name v; name := srv_id v |}.

Definition subscriptionCategoryValue (s : Subscription) : CategoryValue :=
  {| displayName := sub_name s ++ " - " ++ sub_id s; name := sub_id s |}.

Definition accountCategoryValue (a : Account) : CategoryValue :=
  {| displayName := account_displayName a; name := account_displayName a |}.

Definition serversUrl (subscription : option string) : string :=
  "https://management.azure.com/subscriptions/" ++ JsString.interpolate subscription
  ++ "/providers/Microsoft.Sql/servers?api-version=2019-06-01-preview".

Definition populateServerGroupDropdown : M unit :=
  modify (with_serverGroupLoader true) ;;
  p <- get ;;
  let currentSubscriptionValue := value (_azureSubscriptionsDropdown p) in
  if match currentSubscriptionValue with
     | None => true
     | Some cv => String.eqb (displayName cv) EmptyString
     end
  then
    modify (with_serverGroupDropdown (updateProperties_values [])) ;;
    modify (with_serverGroupLoader false) ;;
    ret tt
  else
    let url := serversUrl (azureSubscription (model p)) in
    response <- getRequest url ;;
    vs <- defined (data_value response) ;;
    if (length vs =? 0)%nat then
      modify (with_serverGroupDropdown (updateProperties_values [noServersFound])) ;;
      modify (with_serverGroupLoader false) ;;
      ret tt
    else
      modify (with_serverGroupDropdown (addDropdownValues (map serverCategoryValue vs))) ;;
      p' <- get ;;
      match value (_serverGroupDropdown p') with
      | Some cv =>
          modify (with_model (set_azureServerName (Some (displayName cv)))) ;;
          modify (with_model (set_azureResouceGroup (Some (extractResourceGroup (name cv)))))
      | None => ret tt
      end ;;
      modify (with_serverGroupLoader false) ;;
      ret tt.

(** The comparator of the subscription sort:
    [a.name.toLocaleLowerCase().localeCompare(b.name.toLocaleLowerCase())] *)
Definition compareSubscriptions (e : Env) (a b : Subscription) : Z :=
  localeCompare e (toLocaleLowerCase e (sub_name a)) (toLocaleLowerCase e (sub_name b)).

(** The [_subscriptionsMap.set] calls made while mapping over the list. *)
Definition setSubscriptions (l : list Subscription) (m : gmap string Subscription)
  : gmap string Subscription :=
  foldl (fun acc s => <[ sub_id s := s ]> acc) m l.

Definition setAccounts (l : list Account) (m : gmap string Account)
  : gmap string Account :=
  foldl (fun acc a => <[ account_displayName a := a ]> acc) m l.

Definition populateAzureSubscriptionsDropdown : M unit :=
  modify (with_azureSubscriptionLoader true) ;;
  await CallGetAzurecoreApi (fun _ => inr tt) ;;
  p <- get ;;
  match value (_azureAccountsDropdown p) with
  | None =>
      modify (with_azureSubscriptionLoader false) ;;
      populateServerGroupDropdown ;;
      ret tt
  | Some currentAccountDropdownValue =>
      let currentAccount := _accountsMap p !! name currentAccountDropdownValue in
      subscriptions <- await (CallGetSubscriptions currentAccount)
                             (fun e => getSubscriptions e currentAccount) ;;
      match subscriptions with
      | None | Some [] =>
          modify (with_azureSubscriptionsDropdown (updateProperties_values [])) ;;
          modify (with_azureSubscriptionLoader false) ;;
          populateServerGroupDropdown ;;
          ret tt
      | Some subscriptions =>
          e <- ask ;;
          let sorted := Array_sort (compareSubscriptions e) subscriptions in
          modify (with_subscriptionsMap (setSubscriptions sorted)) ;;
          modify (with_azureSubscriptionsDropdown
                    (addDropdownValues (map subscriptionCategoryValue sorted))) ;;
          p1 <- get ;;
          v1 <- defined (value (_azureSubscriptionsDropdown p1)) ;;
          modify (with_model (set_azureSubscription (Some (name v1)))) ;;
          modify (with_model (set_azureSubscriptionDisplayName (Some (displayName v1)))) ;;
          p2 <- get ;;
          let tenant := _subscriptionsMap p2 !! name v1 ≫= sub_tenant in
          tok <- await (CallGetAccountSecurityToken (azureAccount (model p2)) tenant)
                       (fun e => getAccountSecurityToken e (azureAccount (model p2)) tenant) ;;
          modify (with_model (set_securityToken (Some tok))) ;;
          modify (with_azureSubscriptionLoader false) ;;
          populateServerGroupDropdown
      end
  end.

Definition populateAzureAccountsDropdown : M unit :=
  modify (with_azureAccountsLoader true) ;;
  accounts <- await CallGetAllAccounts getAllAccounts ;;
  if (length accounts =? 0)%nat then
    showErrorMessage "Sign in to an Azure account first" ;;
    ret tt
  else
    showErrorMessage EmptyString ;;
    modify (with_accountsMap (setAccounts accounts)) ;;
    modify (with_azureAccountsDropdown (addDropdownValues (map accountCategoryValue accounts))) ;;
    modify (with_model (set_azureAccount (head accounts))) ;;
    modify (with_azureAccountsLoader false) ;;
    populateAzureSubscriptionsDropdown.

(** The [onValueChanged] handlers; [selected] is the display name the host
    passes in the event. *)
Definition onAzureAccountValueChanged (selected : string) : M unit :=
  p <- get ;;
  modify (with_model (set_azureAccount (_accountsMap p !! selected))) ;;
  spawn populateAzureSubscriptionsDropdown.

Definition onAzureSubscriptionValueChanged : M unit :=
  p <- get ;;
  currentSubscriptionValue <- defined (value (_azureSubscriptionsDropdown p)) ;;
  modify (with_model (set_azureSubscription (Some (name currentSubscriptionValue)))) ;;
  modify (with_model
            (set_azureSubscriptionDisplayName (Some (displayName currentSubscriptionValue)))) ;;
  p1 <- get ;;
  let tenant := _subscriptionsMap p1 !! name currentSubscriptionValue ≫= sub_tenant in
  tok <- await (CallGetAccountSecurityToken (azureAccount (model p1)) tenant)
               (fun e => getAccountSecurityToken e (azureAccount (model p1)) tenant) ;;
  modify (with_model (set_securityToken (Some tok))) ;;
  spawn populateServerGroupDropdown.

Definition onServerGroupValueChanged (selected : string) : M unit :=
  p <- get ;;
  cv <- defined (value (_serverGroupDropdown p)) ;;
  if String.eqb selected (displayName cv) then
    modify (with_model (set_azureServerName (Some (displayName cv)))) ;;
    modify (with_model (set_azureResouceGroup (Some (extractResourceGroup (name cv)))))
  else ret tt.

Definition signInButton_onDidClick : M unit :=
  await (CallExecuteCommand "workbench.actions.modal.linkedAccount")
        (fun e => executeCommand e "workbench.actions.modal.linkedAccount") ;;
  populateAzureAccountsDropdown.

Definition refreshButton_onDidClick : M unit :=
  populateAzureAccountsDropdown.

Definition noServersMessage : string :=
  "No servers found in current subscription." ++ newline
  ++ "Select a different subscription containing at least one server".

Definition formValidation : M string :=
  p <- get ;;
  cv <- defined (value (_serverGroupDropdown p)) ;;
  let serverName := displayName cv in
  let errorMessage :=
    if String.eqb serverName "No servers found" then [noServersMessage] else [] in
  showErrorMessage (join newline errorMessage) ;;
  ret (join newline errorMessage).

(** [wizard.WizardPageChangeInfo] *)
Record PageChangeInfo := { lastPage : Z; newPage : Z }.

(** The navigation validator [onEnter] registers. *)
Definition onEnter_validator (pcInfo : PageChangeInfo) : M bool :=
  if newPage pcInfo <? lastPage pcInfo then ret true
  else
    modify (with_liveValidation true) ;;
    errorMessage <- formValidation ;;
    if negb (String.eqb errorMessage EmptyString) then ret false
    else ret true.

(** The navigation validator [onLeave] registers. *)
Definition onLeave_validator (pcInfo : PageChangeInfo) : M bool := ret true.

(** What the host can make the page do: the first load [initialize] starts,
    the two buttons, a choice of the user in one of the dropdowns (the host
    stores the chosen entry, then calls the handler), and a navigation
    attempt while the page is entered. *)
Inductive Handler :=
| Initialize
| SignInClicked
| RefreshClicked
| AccountChosen (cv : CategoryValue)
| SubscriptionChosen (cv : CategoryValue)
| ServerChosen (cv : CategoryValue)
| Navigate (pcInfo : PageChangeInfo).

Definition handle (h : Handler) : M unit :=
  match h with
  | Initialize => spawn populateAzureAccountsDropdown
  | SignInClicked => signInButton_onDidClick
  | RefreshClicked => refreshButton_onDidClick
  | AccountChosen cv =>
      modify (with_azureAccountsDropdown (selectValue cv)) ;;
      onAzureAccountValueChanged (displayName cv)
  | SubscriptionChosen cv =>
      modify (with_azureSubscriptionsDropdown (selectValue cv)) ;;
      onAzureSubscriptionValueChanged
  | ServerChosen cv =>
      modify (with_serverGroupDropdown (selectValue cv)) ;;
      onServerGroupValueChanged (displayName cv)
  | Navigate pcInfo => onEnter_validator pcInfo ;; ret tt
  end.

(** The page after a handler has run. *)
Definition after (h : Handler) (e : Env) (p : Page) : Page := out_page (handle h e p).

(** The outside calls of a trace, in order. *)
Definition calls (t : list Event) : list Call := map ev_call t.

Definition isFetch (c : Call) : bool :=
  match c with
  | CallGetSubscriptions _ | CallAxiosGet _ _ | CallGetAccountSecurityToken _ _
  | CallGetAllAccounts => true
  | CallExecuteCommand _ | CallGetAzurecoreApi => false
  end.

(** The page as it is when the first fetch of a trace is issued. *)
Fixpoint pageAtFirstFetch (t : list Event) : option Page :=
  match t with
  | [] => None
  | ev :: t' => if isFetch (ev_call ev) then Some (ev_page ev) else pageAtFirstFetch t'
  end.

(** ** [isNotebookContent] *)

Module Notebook.

(** The values [JSON.parse] produces.  An object is the list of its own
    members, every key once; a number keeps its literal. *)
Inductive json :=
| JNull
| JBoolean (b : bool)
| JNumber (literal : string)
| JString (s : string)
| JArray (items : list json)
| JObject (members : list (string * json)).

Fixpoint lookupMember (key : string) (members : list (string * json)) : option json :=
  match members with
  | [] => None
  | (k, v) :: rest => if String.eqb k key then Some v else lookupMember key rest
  end.

(** [doc.key] for a key no built-in prototype defines (as the four keys
    read below): reading a member of null throws, an object gives its
    member or undefined, every other value gives undefined. *)
Definition getMember (doc : json) (key : string) : exn + option json :=
  match doc with
  | JNull => inl TypeError
  | JObject members => inr (lookupMember key members)
  | _ => inr None
  end.

(** [typeof]; undefined is [None]. *)
Definition typeof (v : option json) : string :=
  match v with
  | None => "undefined"
  | Some JNull => "object"
  | Some (JBoolean _) => "boolean"
  | Some (JNumber _) => "number"
  | Some (JString _) => "string"
  | Some (JArray _) => "object"
  | Some (JObject _) => "object"
  end.

Section WithParser.
(** [JSON.parse] of the engine: the parsed value, or the SyntaxError. *)
Variable JSON_parse : string -> exn + json.

(** The [try] block: [inr true] when it returns true, [inr false] when it
    runs to its end, [inl] when it throws.  [&&] evaluates its right
    operand only when the left one holds. *)
Definition tryBlock (documentContent : string) : exn + bool :=
  match JSON_parse documentContent with
  | inl ex => inl ex
  | inr doc =>
      match getMember doc "metadata" with
      | inl ex => inl ex
      | inr metadata =>
          if negb (String.eqb (typeof metadata) "object") then inr false else
          match getMember doc "nbformat" with
          | inl ex => inl ex
          | inr nbformat =>
              if negb (String.eqb (typeof nbformat) "number") then inr false else
              match getMember doc "nbformat_minor" with
              | inl ex => inl ex
              | inr nbformat_minor =>
                  if negb (String.eqb (typeof nbformat_minor) "number") then inr false else
                  match getMember doc "cells" with
                  | inl ex => inl ex
                  | inr cells =>
                      if String.eqb (typeof cells) "object" then inr true else inr false
                  end
              end
          end
      end
  end.

Definition isNotebookContent (documentContent : string) : bool :=
  match tryBlock documentContent with
  | inr true => true
  | inr false => false   (* the try block ran to its end *)
  | inl _ => false       (* catch { } *)
  end.

(** The claim's words: the document has a field [key] whose type is [ty]. *)
Definition fieldHasType (doc : json) (key ty : string) : Prop :=
  exists members v,
    doc = JObject members /\ lookupMember key members = Some v /\ typeof (Some v) = ty.

Definition parsesToNotebook (documentContent : string) : Prop :=
  exists doc,
    JSON_parse documentContent = inr doc
    /\ fieldHasType doc "metadata" "object"
    /\ fieldHasType doc "nbformat" "number"
    /\ fieldHasType doc "nbformat_minor" "number"
    /\ fieldHasType doc "cells" "object".
End WithParser.

End Notebook.

(** ** Pages the host can bring about *)

(** The pages the host can bring about: from the new page, one handler
    after the other, each with whatever the outside answers; a handler
    that throws leaves the page as it was at the throw. *)
Inductive reachable : Page -> Prop :=
| reachable_initial : reachable initialPage
| reachable_after (h : Handler) (e : Env) (p : Page) :
    reachable p -> reachable (after h e p).

(** ** The claims' vocabulary *)


Definition subscriptionIsSet (p : Page) : Prop :=
  azureSubscription (model p) <> None \/ value (_azureSubscriptionsDropdown p) <> None.

Definition serverIsSet (p : Page) : Prop :=
  value (_serverGroupDropdown p) <> None /\ azureServerName (model p) <> None.



(** The validator returns a message that is not empty. *)
Definition someErrorMessage (e : Env) (p : Page) : Prop :=
  exists msg, out_result (formValidation e p) = inr msg /\ msg <> EmptyString.

(** The page at the moment the subscription list is asked for after the
    account dropdown changed to [cv]. *)
Definition pageAtSubscriptionFetch (cv : CategoryValue) (p : Page) : Page :=
  with_azureSubscriptionLoader true
    (with_model (set_azureAccount (_accountsMap p !! displayName cv))
       (with_azureAccountsDropdown (selectValue cv) p)).

(** The order the claims speak of: ascending by lower-cased text. *)
Definition ascending (e : Env) (a b : string) : Prop :=
  localeCompare e (toLocaleLowerCase e a) (toLocaleLowerCase e b) <= 0.

Definition byDisplayName (e : Env) (a b : CategoryValue) : Prop :=
  ascending e (displayName a) (displayName b).

(** [a] does not come after [b] for a comparator. *)
Definition notAfter {A} (compareFn : A -> A -> Z) (a b : A) : Prop := compareFn a b <= 0.

Definition bySubscriptionName (e : Env) : Subscription -> Subscription -> Prop :=
  notAfter (compareSubscriptions e).

(** What [localeCompare] is asked to satisfy here: of two strings, one does
    not come after the other. *)
Definition comparesBothWays (e : Env) : Prop :=
  forall a b : string, 0 < localeCompare e a b -> localeCompare e b a <= 0.




(** ** Reasoning about runs *)

(** An outcome with earlier outside calls put in front of its trace. *)
Definition prepend {A} (t : list Event) (o : Outcome A) : Outcome A :=
  {| out_trace := t ++ out_trace o; out_page := out_page o; out_result := out_result o |}.

(** Whatever the outside answers and however the run ends (normally or by
    an exception), the page it ends in is related by [R] to the page it
    started from. *)
Definition always (R : Page -> Page -> Prop) {A} (m : M A) : Prop :=
  forall e p, R p (out_page (m e p)).

(** A part of the page is left as it was. *)
Definition unchanged {X} (f : Page -> X) (p q : Page) : Prop := f q = f p.



(** The pages a server reload can end in: the list emptied for want of a
    subscription; the run cut short by an exception, the loader still
    spinning; the No servers found entry; the list of the response with its
    first server selected. *)
Definition serversCleared (p : Page) : Page :=
  with_serverGroupLoader false
    (with_serverGroupDropdown (updateProperties_values []) (with_serverGroupLoader true p)).

Definition serversInterrupted (p : Page) : Page := with_serverGroupLoader true p.

Definition serversNotFound (p : Page) : Page :=
  with_serverGroupLoader false
    (with_serverGroupDropdown (updateProperties_values [noServersFound])
       (with_serverGroupLoader true p)).

Definition serversLoaded (v : ServerEntry) (vs : list ServerEntry) (p : Page) : Page :=
  with_serverGroupLoader false
    (with_model (set_azureResouceGroup (Some (extractResourceGroup (srv_id v))))
       (with_model (set_azureServerName (Some (srv_name v)))
          (with_serverGroupDropdown (addDropdownValues (map serverCategoryValue (v :: vs)))
             (with_serverGroupLoader true p)))).

(** ** Sample data *)

Definition asciiLower (c : ascii) : ascii :=
  let n := nat_of_ascii c in
  if ((65 <=? n) && (n <=? 90))%nat then ascii_of_nat (n + 32) else c.

Fixpoint lowerAscii (s : string) : string :=
  match s with
  | EmptyString => EmptyString
  | String c s' => String (asciiLower c) (lowerAscii s')
  end.

(** Comparison by code units, as [localeCompare] does on lower-case letters
    and digits. *)
Definition codeUnitCompare (a b : string) : Z :=
  match String.compare a b with
  | Lt => -1
  | Eq => 0
  | Gt => 1
  end.

(** An outside that knows the given accounts, gives every account the given
    subscription list, a token, and answers every GET with [t]. *)
Definition demoEnv (accounts : list Account) (subs : option (list Subscription))
    (t : TransportOutcome) : Env :=
  {| getAllAccounts := inr accounts;
     executeCommand := fun _ => inr tt;
     getSubscriptions := fun _ => inr subs;
     getAccountSecurityToken := fun _ _ => inr {| token := "tok" |};
     transport := fun _ _ => t;
     toLocaleLowerCase := lowerAscii;
     localeCompare := codeUnitCompare |}.

Definition accountA : Account := {| account_displayName := "alice"; account_key := "a1" |}.
Definition accountB : Account := {| account_displayName := "bob"; account_key := "b1" |}.

Definition subDev : Subscription :=
  {| sub_id := "S1"; sub_name := "Dev"; sub_tenant := Some "T" |}.
Definition subAlpha : Subscription :=
  {| sub_id := "S2"; sub_name := "alpha"; sub_tenant := Some "T" |}.

Definition srv1 : ServerEntry :=
  {| srv_name := "srv1";
     srv_id := "/subscriptions/X/resourceGroups/RG1/providers/Microsoft.Sql/servers/srv1" |}.
Definition srvB : ServerEntry :=
  {| srv_name := "b";
     srv_id := "/subscriptions/X/resourceGroups/RG2/providers/Microsoft.Sql/servers/b" |}.
Definition srvA : ServerEntry :=
  {| srv_name := "a";
     srv_id := "/subscriptions/X/resourceGroups/RG3/providers/Microsoft.Sql/servers/a" |}.

Definition okResponse (l : list ServerEntry) : TransportOutcome :=
  Delivered {| status := 200; data_value := Some l |}.

(** One account, one subscription, one server. *)
Definition envLoaded : Env := demoEnv [accountA] (Some [subDev]) (okResponse [srv1]).

(** The page after the first load in [envLoaded]. *)
Definition loadedPage : Page := after Initialize envLoaded initialPage.

(** The credential store has no account (any more). *)
Definition envNoAccounts : Env := demoEnv [] None (okResponse []).

(** The subscription has no server. *)
Definition envNoServers : Env := demoEnv [accountA] (Some [subDev]) (okResponse []).

(** The server list comes back as b, a. *)
Definition envServersBA : Env := demoEnv [accountA] (Some [subDev]) (okResponse [srvB; srvA]).

(** Two subscriptions, returned as Dev, alpha. *)
Definition envSubsDevAlpha : Env :=
  demoEnv [accountA] (Some [subDev; subAlpha]) (okResponse [srv1]).

(** The management API answers 404 with an error body. *)
Definition response404 : AxiosResponse := {| status := 404; data_value := None |}.
Definition env404 : Env := demoEnv [accountA] (Some [subDev]) (Delivered response404).

(** Two accounts; the subscription list depends on the account asked for. *)
Definition envTwoAccounts (subsOfB : option (list Subscription)) : Env :=
  {| getAllAccounts := inr [accountA; accountB];
     executeCommand := fun _ => inr tt;
     getSubscriptions := fun a =>
       match a with
       | Some acc => if String.eqb (account_displayName acc) "bob"
                     then inr subsOfB else inr (Some [subDev])
       | None => inr None
       end;
     getAccountSecurityToken := fun _ _ => inr {| token := "tok" |};
     transport := fun _ _ => okResponse [srv1];
     toLocaleLowerCase := lowerAscii;
     localeCompare := codeUnitCompare |}.

(** The page after the first load with the two accounts: alice, her
    subscription and its server are selected. *)
Definition loadedPageTwo : Page := after Initialize (envTwoAccounts None) initialPage.


Definition forward : PageChangeInfo := {| lastPage := 0; newPage := 1 |}.
Definition backward : PageChangeInfo := {| lastPage := 1; newPage := 0 |}.

(** A parser that knows three texts, for the examples. *)
Definition sampleParse (s : string) : exn + Notebook.json :=
  if String.eqb s "null" then inr Notebook.JNull
  else if String.eqb s "{nb}" then
    inr (Notebook.JObject
           [ ("metadata", Notebook.JNull);
             ("nbformat", Notebook.JNumber "4");
             ("nbformat_minor", Notebook.JNumber "2");
             ("cells", Notebook.JArray []) ])
  else if String.eqb s "{nb-text}" then
    inr (Notebook.JObject
           [ ("metadata", Notebook.JObject []);
             ("nbformat", Notebook.JString "4");
             ("nbformat_minor", Notebook.JNumber "2");
             ("cells", Notebook.JArray []) ])
  else inl SyntaxError.

(** ** Further properties of the page: vocabulary *)

(** A property of the page that a run does not destroy. *)
Definition preserves (I : Page -> Prop) (p q : Page) : Prop := I p -> I q.

(** The headers [getRequest] sends with a token. *)
Definition requestHeaders (tok : Token) : list (string * string) :=
  [ ("Content-Type", "application/json"); ("Authorization", "Bearer " ++ token tok) ].

(** The request of the server list a reload started on [p] sends. *)
Definition serverRequest (p : Page) (tok : Token) : Event :=
  {| ev_call := CallAxiosGet (serversUrl (azureSubscription (model p))) (requestHeaders tok);
     ev_page := with_serverGroupLoader true p |}.

(** Everything upstream of the server list is as it was: the account and
    subscription dropdowns with their loaders, the two maps, the model's
    account, subscription and token, the message and [liveValidation]. *)
Definition upstreamUntouched (p q : Page) : Prop :=
  _azureAccountsDropdown q = _azureAccountsDropdown p
  /\ _azureAccountsLoader q = _azureAccountsLoader p
  /\ _azureSubscriptionsDropdown q = _azureSubscriptionsDropdown p
  /\ _azureSubscriptionLoader q = _azureSubscriptionLoader p
  /\ _accountsMap q = _accountsMap p
  /\ _subscriptionsMap q = _subscriptionsMap p
  /\ azureAccount (model q) = azureAccount (model p)
  /\ azureSubscription (model q) = azureSubscription (model p)
  /\ azureSubscriptionDisplayName (model q) = azureSubscriptionDisplayName (model p)
  /\ securityToken (model q) = securityToken (model p)
  /\ message q = message p
  /\ liveValidation q = liveValidation p.

(** The model names the subscription the dropdown shows. *)
Definition subscriptionFollowsDropdown (p : Page) : Prop :=
  forall cv, value (_azureSubscriptionsDropdown p) = Some cv ->
             azureSubscription (model p) = Some (name cv)
             /\ azureSubscriptionDisplayName (model p) = Some (displayName cv).

(** The model names the server the dropdown shows, unless that is the
    No servers found entry. *)
Definition serverNameFollowsDropdown (p : Page) : Prop :=
  forall cv, value (_serverGroupDropdown p) = Some cv ->
             displayName cv <> "No servers found" ->
             azureServerName (model p) = Some (displayName cv).

(** No key of the two maps is lost. *)
Definition mapsGrow (p q : Page) : Prop :=
  (forall k, is_Some (_accountsMap p !! k) -> is_Some (_accountsMap q !! k))
  /\ (forall k, is_Some (_subscriptionsMap p !! k) -> is_Some (_subscriptionsMap q !! k)).

(** The last element of a list that satisfies a test. *)
Definition findLast {A} (f : A -> bool) (l : list A) : option A := find f (rev l).

Definition sameDisplayName (k : string) (a : Account) : bool :=
  String.eqb (account_displayName a) k.

Definition sameId (k : string) (s : Subscription) : bool := String.eqb (sub_id s) k.

(** Every entry the account and the subscription dropdown offer is found in
    its map, under the key the handlers look it up with, and the entry
    found carries that key. *)
Definition entriesResolve (p : Page) : Prop :=
  (forall cv, In cv (values (_azureAccountsDropdown p)) ->
      exists a, _accountsMap p !! displayName cv = Some a
                /\ account_displayName a = displayName cv)
  /\ (forall cv, In cv (values (_azureSubscriptionsDropdown p)) ->
      exists s, _subscriptionsMap p !! name cv = Some s /\ sub_id s = name cv).

(** Two accounts of the same display name. *)
Definition accountA2 : Account := {| account_displayName := "alice"; account_key := "a2" |}.

(** The page right after the user chose [cv] in the subscription dropdown
    and the handler recorded it in the model. *)
Definition subscriptionRecorded (cv : CategoryValue) (p : Page) : Page :=
  with_model (set_azureSubscriptionDisplayName (Some (displayName cv)))
    (with_model (set_azureSubscription (Some (name cv)))
       (with_azureSubscriptionsDropdown (selectValue cv) p)).

(** The tenant the token is asked for when [cv] is chosen. *)
Definition tenantOf (cv : CategoryValue) (p : Page) : option string :=
  _subscriptionsMap p !! name cv ≫= sub_tenant.

(** The credential store knows two accounts that show the same name. *)
Definition envSameName : Env :=
  demoEnv [accountA; accountA2] (Some [subDev]) (okResponse [srv1]).

(** ** [getRandomToken] *)

Module RandomToken.

(** [Buffer.toString('hex')]: two lower-case hexadecimal digits a byte. *)
Definition hexDigit (n : N) : ascii :=
  match n with
  | 0%N => "0" | 1%N => "1" | 2%N => "2" | 3%N => "3"
  | 4%N => "4" | 5%N => "5" | 6%N => "6" | 7%N => "7"
  | 8%N => "8" | 9%N => "9" | 10%N => "a" | 11%N => "b"
  | 12%N => "c" | 13%N => "d" | 14%N => "e" | _ => "f"
  end%char.

Definition byteToHex (b : Byte.byte) (rest : string) : string :=
  String (hexDigit (Byte.to_N b / 16)) (String (hexDigit (Byte.to_N b mod 16)) rest).

Fixpoint toHex (buffer : list Byte.byte) : string :=
  match buffer with
  | [] => EmptyString
  | b :: buffer' => byteToHex b (toHex buffer')
  end.

(** A promise settles once: the first [resolve] or [reject] counts. *)
Inductive Settlement :=
| Pending
| Resolved (token : string)
| RejectedWith (err : exn).

Definition resolve (s : Settlement) (token : string) : Settlement :=
  match s with
  | Pending => Resolved token
  | _ => s
  end.

Definition reject (s : Settlement) (err : exn) : Settlement :=
  match s with
  | Pending => RejectedWith err
  | _ => s
  end.

(** What a run of the callback leaves: the promise, and whether the
    callback itself threw. *)
Record CallbackRun := { promise : Settlement; threw : option exn }.

(** The callback handed to [crypto.randomBytes]: it rejects on an error and
    goes on (there is no return), reads the buffer, and resolves. *)
Definition callback (err : option exn) (buffer : option (list Byte.byte)) : CallbackRun :=
  let s := match err with
           | Some er => reject Pending er
           | None => Pending
           end in
  match buffer with
  | None => {| promise := s; threw := Some TypeError |}
  | Some b => {| promise := resolve s (toHex b); threw := None |}
  end.

(** [crypto.randomBytes(size, callback)] calls back with the error, or with
    a buffer; [randomBytes] is the system's source.  The size is a number
    of bytes the source accepts. *)
Definition getRandomToken (randomBytes : nat -> exn + list Byte.byte) (size : nat)
  : CallbackRun :=
  match randomBytes size with
  | inl err => callback (Some err) None
  | inr buffer => callback None (Some buffer)
  end.

(** The default of the parameter. *)
Definition defaultSize : nat := 24.

Definition isHexDigit (c : ascii) : bool :=
  let n := nat_of_ascii c in
  (((48 <=? n) && (n <=? 57)) || ((97 <=? n) && (n <=? 102)))%nat.

Fixpoint allHexDigits (s : string) : bool :=
  match s with
  | EmptyString => true
  | String c s' => isHexDigit c && allHexDigits s'
  end.

End RandomToken.

(** A source that hands out the bytes 0, 1, 2, ... *)
Definition countingSource (size : nat) : exn + list Byte.byte :=
  inr (map (fun n => default Byte.x00 (Byte.of_nat n)) (seq 0 size)).


(** ** [PostgresOverviewPage] *)

Module Postgres.

Record Hyperlink := { label : string; url : string }.

(** The page's own state: its components (undefined until [container] has
    built them) and the [enabled] flag of the three toolbar buttons that
    have a handler body.  A loading component is its [loading] flag; the
    properties container is its list of items. *)
Record Dashboard := {
  propertiesLoading : option bool;
  kibanaLoading : option bool;
  grafanaLoading : option bool;
  properties : option (list (string * string));
  kibanaLink : option Hyperlink;
  grafanaLink : option Hyperlink;
  initialized : bool;
  resetPasswordButton : bool;
  deleteButton : bool;
  refreshButton : bool
}.

(** The outside: the two models, the prompts, the azdata command, and the
    localized texts ([loc]). *)
Record World := {
  info_name : string;                          (* _postgresModel.info.name *)
  config_namespace : option string;            (* _postgresModel.config?.metadata.namespace *)
  logsui_endpoint : option string;             (* getEndpoint(Endpoints.logsui)?.endpoint *)
  metricsui_endpoint : option string;          (* getEndpoint(Endpoints.metricsui)?.endpoint *)
  registrationsLastUpdated : bool;             (* as truth values *)
  configLastUpdated : bool;
  endpointsLastUpdated : bool;
  promptAndConfirmPassword : exn + option string;
  promptForResourceDeletion : exn + bool;
  server_delete : exn + unit;
  refreshTreeNode : exn + unit;
  postgresModel_refresh : exn + unit;
  controllerModel_refresh : exn + unit;
  controllerSettlesFirst : bool;               (* which of the two refreshes settles first *)
  loc_passwordReset : string;
  loc_passwordResetFailed : exn -> string;
  loc_resourceDeleted : string -> string;
  loc_resourceDeletionFailed : string -> exn -> string;
  loc_refreshFailed : exn -> string
}.

Inductive Action :=
| PromptAndConfirmPassword
| PromptForResourceDeletion (name : string)
| ServerDelete (name : string)
| RefreshTreeNode
| PostgresModelRefresh
| ControllerModelRefresh
| ShowInformationMessage (text : string)
| ShowErrorMessage (text : string).

Record Run (A : Type) := {
  actions : list Action;
  dashboard : Dashboard;
  result : exn + A
}.
Arguments actions {A} _.
Arguments dashboard {A} _.
Arguments result {A} _.

Definition T (A : Type) : Type := World -> Dashboard -> Run A.

Definition pure {A} (x : A) : T A :=
  fun _ d => {| actions := []; dashboard := d; result := inr x |}.

Definition raise {A} (ex : exn) : T A :=
  fun _ d => {| actions := []; dashboard := d; result := inl ex |}.

Definition andThen {A B} (m : T A) (k : A -> T B) : T B :=
  fun w d =>
    let r := m w d in
    match result r with
    | inl ex => {| actions := actions r; dashboard := dashboard r; result := inl ex |}
    | inr x =>
        let r' := k x w (dashboard r) in
        {| actions := actions r ++ actions r'; dashboard := dashboard r';
           result := result r' |}
    end.

(** [try { body } catch (error) { handler }] *)
Definition tryCatch (body : T unit) (handler : exn -> T unit) : T unit :=
  fun w d =>
    let r := body w d in
    match result r with
    | inr x => r
    | inl ex =>
        let r' := handler ex w (dashboard r) in
        {| actions := actions r ++ actions r'; dashboard := dashboard r';
           result := result r' |}
    end.

(** [... finally { final }]: [final] runs however the block ended; the
    exception of the block, if any, goes on after it unless [final] throws
    itself. *)
Definition finally (block final : T unit) : T unit :=
  fun w d =>
    let r := block w d in
    let r' := final w (dashboard r) in
    {| actions := actions r ++ actions r'; dashboard := dashboard r';
       result := match result r' with
                 | inl ex => inl ex
                 | inr _ => result r
                 end |}.

Definition world : T World :=
  fun w d => {| actions := []; dashboard := d; result := inr w |}.

Definition current : T Dashboard :=
  fun _ d => {| actions := []; dashboard := d; result := inr d |}.

Definition update (f : Dashboard -> Dashboard) : T unit :=
  fun _ d => {| actions := []; dashboard := f d; result := inr tt |}.

(** An outside call: recorded, then answered. *)
Definition call {A} (a : Action) (answer : World -> exn + A) : T A :=
  fun w d => {| actions := [a]; dashboard := d; result := answer w |}.

(** [component!.member = ...] on a component that may not exist yet. *)
Definition present {A} (o : option A) : T A :=
  match o with
  | Some x => pure x
  | None => raise TypeError
  end.

Definition set_propertiesLoading (v : option bool) (d : Dashboard) : Dashboard :=
  {| propertiesLoading := v; kibanaLoading := kibanaLoading d;
     grafanaLoading := grafanaLoading d; properties := properties d;
     kibanaLink := kibanaLink d; grafanaLink := grafanaLink d;
     initialized := initialized d; resetPasswordButton := resetPasswordButton d;
     deleteButton := deleteButton d; refreshButton := refreshButton d |}.

Definition set_kibanaLoading (v : option bool) (d : Dashboard) : Dashboard :=
  {| propertiesLoading := propertiesLoading d; kibanaLoading := v;
     grafanaLoading := grafanaLoading d; properties := properties d;
     kibanaLink := kibanaLink d; grafanaLink := grafanaLink d;
     initialized := initialized d; resetPasswordButton := resetPasswordButton d;
     deleteButton := deleteButton d; refreshButton := refreshButton d |}.

Definition set_grafanaLoading (v : option bool) (d : Dashboard) : Dashboard :=
  {| propertiesLoading := propertiesLoading d; kibanaLoading := kibanaLoading d;
     grafanaLoading := v; properties := properties d;
     kibanaLink := kibanaLink d; grafanaLink := grafanaLink d;
     initialized := initialized d; resetPasswordButton := resetPasswordButton d;
     deleteButton := deleteButton d; refreshButton := refreshButton d |}.

Definition set_properties (v : option (list (string * string))) (d : Dashboard) : Dashboard :=
  {| propertiesLoading := propertiesLoading d; kibanaLoading := kibanaLoading d;
     grafanaLoading := grafanaLoading d; properties := v;
     kibanaLink := kibanaLink d; grafanaLink := grafanaLink d;
     initialized := initialized d; resetPasswordButton := resetPasswordButton d;
     deleteButton := deleteButton d; refreshButton := refreshButton d |}.

Definition set_kibanaLink (v : option Hyperlink) (d : Dashboard) : Dashboard :=
  {| propertiesLoading := propertiesLoading d; kibanaLoading := kibanaLoading d;
     grafanaLoading := grafanaLoading d; properties := properties d;
     kibanaLink := v; grafanaLink := grafanaLink d;
     initialized := initialized d; resetPasswordButton := resetPasswordButton d;
     deleteButton := deleteButton d; refreshButton := refreshButton d |}.

Definition set_grafanaLink (v : option Hyperlink) (d : Dashboard) : Dashboard :=
  {| propertiesLoading := propertiesLoading d; kibanaLoading := kibanaLoading d;
     grafanaLoading := grafanaLoading d; properties := properties d;
     kibanaLink := kibanaLink d; grafanaLink := v;
     initialized := initialized d; resetPasswordButton := resetPasswordButton d;
     deleteButton := deleteButton d; refreshButton := refreshButton d |}.

Definition set_initialized (v : bool) (d : Dashboard) : Dashboard :=
  {| propertiesLoading := propertiesLoading d; kibanaLoading := kibanaLoading d;
     grafanaLoading := grafanaLoading d; properties := properties d;
     kibanaLink := kibanaLink d; grafanaLink := grafanaLink d;
     initialized := v; resetPasswordButton := resetPasswordButton d;
     deleteButton := deleteButton d; refreshButton := refreshButton d |}.

Definition set_resetPasswordButton (v : bool) (d : Dashboard) : Dashboard :=
  {| propertiesLoading := propertiesLoading d; kibanaLoading := kibanaLoading d;
     grafanaLoading := grafanaLoading d; properties := properties d;
     kibanaLink := kibanaLink d; grafanaLink := grafanaLink d;
     initialized := initialized d; resetPasswordButton := v;
     deleteButton := deleteButton d; refreshButton := refreshButton d |}.

Definition set_deleteButton (v : bool) (d : Dashboard) : Dashboard :=
  {| propertiesLoading := propertiesLoading d; kibanaLoading := kibanaLoading d;
     grafanaLoading := grafanaLoading d; properties := properties d;
     kibanaLink := kibanaLink d; grafanaLink := grafanaLink d;
     initialized := initialized d; resetPasswordButton := resetPasswordButton d;
     deleteButton := v; refreshButton := refreshButton d |}.

Definition set_refreshButton (v : bool) (d : Dashboard) : Dashboard :=
  {| propertiesLoading := propertiesLoading d; kibanaLoading := kibanaLoading d;
     grafanaLoading := grafanaLoading d; properties := properties d;
     kibanaLink := kibanaLink d; grafanaLink := grafanaLink d;
     initialized := initialized d; resetPasswordButton := resetPasswordButton d;
     deleteButton := deleteButton d; refreshButton := v |}.

(** The page before [container] has run. *)
Definition newDashboard : Dashboard :=
  {| propertiesLoading := None; kibanaLoading := None; grafanaLoading := None;
     properties := None; kibanaLink := None; grafanaLink := None;
     initialized := false; resetPasswordButton := true; deleteButton := true;
     refreshButton := true |}.

(** [getProperties]: its body is commented out; it returns no item. *)
Definition getProperties (w : World) : list (string * string) := [].

Definition getKibanaLink (w : World) : string :=
  let namespace := config_namespace w in
  let kibanaQuery :=
    "kubernetes_namespace:" ++ String (ascii_of_nat 34) (JsString.interpolate namespace)
    ++ String (ascii_of_nat 34) " and custom_resource_name:"
    ++ String (ascii_of_nat 34) (info_name w) ++ String (ascii_of_nat 34) EmptyString in
  JsString.interpolate (logsui_endpoint w)
  ++ "/app/kibana#/discover?_a=(query:(language:kuery,query:'" ++ kibanaQuery ++ "'))".

Definition getGrafanaLink (w : World) : string :=
  let namespace := config_namespace w in
  let grafanaQuery :=
    "var-Namespace=" ++ JsString.interpolate namespace ++ "&var-Name=" ++ info_name w in
  JsString.interpolate (metricsui_endpoint w) ++ "/d/postgres-metrics?" ++ grafanaQuery.

(** The component part of the [container] getter: the components are
    created with their first values, then [initialized] is set. *)
Definition container : T unit :=
  andThen world (fun w =>
  andThen (update (set_properties (Some (getProperties w)))) (fun _ =>
  andThen (update (set_propertiesLoading
                     (Some (negb (registrationsLastUpdated w)
                            && negb (configLastUpdated w))))) (fun _ =>
  andThen (update (set_kibanaLink
                     (Some {| label := getKibanaLink w; url := getKibanaLink w |}))) (fun _ =>
  andThen (update (set_grafanaLink
                     (Some {| label := getGrafanaLink w; url := getGrafanaLink w |}))) (fun _ =>
  andThen (update (set_kibanaLoading (Some (negb (endpointsLastUpdated w))))) (fun _ =>
  andThen (update (set_grafanaLoading (Some (negb (endpointsLastUpdated w))))) (fun _ =>
  update (set_initialized true)))))))).

(** [component!.member = value]: the value is computed, then the write
    fails with a TypeError when the component does not exist. *)
Definition assign {A} (component : Dashboard -> option A)
    (write : A -> Dashboard -> Dashboard) : T unit :=
  andThen current (fun d =>
  andThen (present (component d)) (fun c =>
  update (write c))).

Definition handleEndpointsUpdated : T unit :=
  andThen world (fun w =>
  andThen (assign kibanaLink
             (fun k => set_kibanaLink (Some {| label := getKibanaLink w; url := url k |})))
    (fun _ =>
  andThen (assign kibanaLink
             (fun k => set_kibanaLink (Some {| label := label k; url := getKibanaLink w |})))
    (fun _ =>
  andThen (assign kibanaLoading (fun _ => set_kibanaLoading (Some false))) (fun _ =>
  andThen (assign grafanaLink
             (fun g => set_grafanaLink (Some {| label := getGrafanaLink w; url := url g |})))
    (fun _ =>
  andThen (assign grafanaLink
             (fun g => set_grafanaLink (Some {| label := label g; url := getGrafanaLink w |})))
    (fun _ =>
  assign grafanaLoading (fun _ => set_grafanaLoading (Some false)))))))).

Definition handleRegistrationsUpdated : T unit :=
  andThen world (fun w =>
  andThen (assign properties (fun _ => set_properties (Some (getProperties w)))) (fun _ =>
  assign propertiesLoading (fun _ => set_propertiesLoading (Some false)))).

Definition handleConfigUpdated : T unit :=
  andThen world (fun w =>
  andThen (assign properties (fun _ => set_properties (Some (getProperties w)))) (fun _ =>
  assign propertiesLoading (fun _ => set_propertiesLoading (Some false)))).

(** A password counts when it is a non-empty string. *)
Definition truthy (password : option string) : bool :=
  match password with
  | Some s => negb (String.eqb s EmptyString)
  | None => false
  end.

Definition resetPasswordButton_onDidClick : T unit :=
  andThen (update (set_resetPasswordButton false)) (fun _ =>
  finally
    (tryCatch
       (andThen (call PromptAndConfirmPassword promptAndConfirmPassword) (fun password =>
        if truthy password then
          andThen world (fun w =>
          call (ShowInformationMessage (loc_passwordReset w)) (fun _ => inr tt))
        else pure tt))
       (fun error =>
          andThen world (fun w =>
          call (ShowErrorMessage (loc_passwordResetFailed w error)) (fun _ => inr tt))))
    (update (set_resetPasswordButton true))).

Definition deleteButton_onDidClick : T unit :=
  andThen (update (set_deleteButton false)) (fun _ =>
  finally
    (tryCatch
       (andThen world (fun w =>
        andThen (call (PromptForResourceDeletion (info_name w)) promptForResourceDeletion)
          (fun confirmed =>
        if confirmed : bool then
          andThen (call (ServerDelete (info_name w)) server_delete) (fun _ =>
          andThen (call RefreshTreeNode refreshTreeNode) (fun _ =>
          call (ShowInformationMessage (loc_resourceDeleted w (info_name w)))
               (fun _ => inr tt)))
        else pure tt)))
       (fun error =>
          andThen world (fun w =>
          call (ShowErrorMessage (loc_resourceDeletionFailed w (info_name w) error))
               (fun _ => inr tt))))
    (update (set_deleteButton true))).

(** A call whose promise is kept for later: only the call is recorded. *)
Definition start (a : Action) : T unit :=
  fun _ d => {| actions := [a]; dashboard := d; result := inr tt |}.

(** [await Promise.all([a, b])] of the two refreshes already started: the
    first rejection to settle is the one thrown. *)
Definition awaitBothRefreshes : T unit :=
  fun w d =>
    {| actions := []; dashboard := d;
       result :=
         match postgresModel_refresh w, controllerModel_refresh w with
         | inr _, inr _ => inr tt
         | inl ex, inr _ => inl ex
         | inr _, inl ex => inl ex
         | inl ex1, inl ex2 => if controllerSettlesFirst w then inl ex2 else inl ex1
         end |}.

Definition refreshButton_onDidClick : T unit :=
  andThen (update (set_refreshButton false)) (fun _ =>
  finally
    (tryCatch
       (andThen (assign propertiesLoading (fun _ => set_propertiesLoading (Some true))) (fun _ =>
        andThen (assign kibanaLoading (fun _ => set_kibanaLoading (Some true))) (fun _ =>
        andThen (assign grafanaLoading (fun _ => set_grafanaLoading (Some true))) (fun _ =>
        andThen (start PostgresModelRefresh) (fun _ =>
        andThen (start ControllerModelRefresh) (fun _ =>
        awaitBothRefreshes))))))
       (fun error =>
          andThen world (fun w =>
          call (ShowErrorMessage (loc_refreshFailed w error)) (fun _ => inr tt))))
    (update (set_refreshButton true))).

(** All the components exist. *)
Definition built (d : Dashboard) : Prop :=
  propertiesLoading d <> None /\ kibanaLoading d <> None /\ grafanaLoading d <> None
  /\ properties d <> None /\ kibanaLink d <> None /\ grafanaLink d <> None.

(** Some refresh was rejected, and [ex] is the rejection that settled
    first. *)
Definition refreshRejected (w : World) (ex : exn) : Prop :=
  match postgresModel_refresh w, controllerModel_refresh w with
  | inr _, inr _ => False
  | inl ex1, inr _ => ex = ex1
  | inr _, inl ex2 => ex = ex2
  | inl ex1, inl ex2 => ex = if controllerSettlesFirst w then ex2 else ex1
  end.

End Postgres.


(** A world for the examples: the prompts and calls answer as given, the
    texts are short. *)
Definition sampleWorld (password : exn + option string) (confirmed : exn + bool)
    (deleted refreshed : exn + unit) : Postgres.World :=
  {| Postgres.info_name := "pg1";
     Postgres.config_namespace := Some "arc";
     Postgres.logsui_endpoint := Some "https://logs";
     Postgres.metricsui_endpoint := None;
     Postgres.registrationsLastUpdated := false;
     Postgres.configLastUpdated := false;
     Postgres.endpointsLastUpdated := false;
     Postgres.promptAndConfirmPassword := password;
     Postgres.promptForResourceDeletion := confirmed;
     Postgres.server_delete := deleted;
     Postgres.refreshTreeNode := inr tt;
     Postgres.postgresModel_refresh := refreshed;
     Postgres.controllerModel_refresh := inr tt;
     Postgres.controllerSettlesFirst := false;
     Postgres.loc_passwordReset := "Password reset";
     Postgres.loc_passwordResetFailed := fun _ => "Failed to reset password";
     Postgres.loc_resourceDeleted := fun n => "Deleted " ++ n;
     Postgres.loc_resourceDeletionFailed := fun n _ => "Failed to delete " ++ n;
     Postgres.loc_refreshFailed := fun _ => "Refresh failed" |}.

(** The page once [container] has built its components. *)
Definition builtDashboard : Postgres.Dashboard :=
  Postgres.dashboard
    (Postgres.container (sampleWorld (inr None) (inr false) (inr tt) (inr tt))
       Postgres.newDashboard).


(** ** Theorems *)

Example extract_no_marker : extractResourceGroup "plain" = "plain".
Proof. reflexivity. Qed.

Example extract_first_marker_only :
  extractResourceGroup "/a/resourceGroups/g/resourceGroups/h/providers/p/providers/q" =
  "g/resourceGroups/h".
Proof. reflexivity. Qed.

(** [.] stops at a line terminator: the first expression does not match
    across one, and the second leaves what follows it. *)
Example extract_line_terminators :
  extractResourceGroup ("/a" ++ newline ++ "/resourceGroups/g/providers/p" ++ newline ++ "q")
  = "/a" ++ newline ++ "/resourceGroups/g" ++ newline ++ "q".
Proof. reflexivity. Qed.

Example loadedPage_server :
  value (_serverGroupDropdown loadedPage) = Some (serverCategoryValue srv1)
  /\ azureResouceGroup (model loadedPage) = Some "RG1"
  /\ azureSubscription (model loadedPage) = Some "S1".
Proof. vm_compute. auto. Qed.

(** *** The wizard's GET request *)

Lemma axios_settle_never_throw (t : TransportOutcome) (r : AxiosResponse) :
  t = Delivered r -> axios_settle (Some (fun _ => true)) t = inr r.
Proof.
  intros ->. unfold axios_settle. now rewrite orb_true_r.
Qed.

(** With axios' own validator the same response would be refused. *)
Example axios_default_refuses_404 :
  axios_settle (Some defaultValidateStatus)
    (Delivered {| status := 404; data_value := None |}) = inl (AxiosError 404).
Proof. reflexivity. Qed.

(** C8: whatever the status of the response the network delivers,
    [getRequest] does not throw on it: it returns that very response, and
    leaves the page as it was.  (The bearer token is read from the model
    first, so the model has to hold one.) *)
Theorem getRequest_returns_any_status
    (e : Env) (p : Page) (url : string) (tok : Token) (r : AxiosResponse) :
  securityToken (model p) = Some tok ->
  transport e url [ ("Content-Type", "application/json");
                    ("Authorization", "Bearer " ++ token tok) ] = Delivered r ->
  out_result (getRequest url e p) = inr r /\ out_page (getRequest url e p) = p.
Proof.
  intros Htok Hnet.
  unfold getRequest, axios_get, await, bind, get, defined; simpl.
  rewrite Htok; simpl. rewrite Hnet; simpl.
  rewrite orb_true_r; simpl. split; reflexivity.
Qed.

Lemma getRequest_returns_any_status_witness :
  out_result (getRequest "https://management.azure.com/x" env404 loadedPage) = inr response404
  /\ out_page (getRequest "https://management.azure.com/x" env404 loadedPage) = loadedPage.
Proof.
  apply (getRequest_returns_any_status env404 loadedPage _ {| token := "tok" |} response404);
    reflexivity.
Defined.

(** *** The form validator *)

Lemma formValidation_selected (e : Env) (p : Page) (cv : CategoryValue) :
  value (_serverGroupDropdown p) = Some cv ->
  formValidation e p =
    let msg := if String.eqb (displayName cv) "No servers found"
               then noServersMessage else EmptyString in
    {| out_trace := []; out_page := with_message msg p; out_result := inr msg |}.
Proof.
  intros Hv. unfold formValidation, bind, get, defined, showErrorMessage, modify, ret; simpl.
  rewrite Hv; simpl. destruct (String.eqb (displayName cv) "No servers found"); reflexivity.
Qed.

Lemma formValidation_undefined (e : Env) (p : Page) :
  value (_serverGroupDropdown p) = None ->
  formValidation e p = {| out_trace := []; out_page := p; out_result := inl TypeError |}.
Proof.
  intros Hv. unfold formValidation, bind, get, defined, throw; simpl.
  now rewrite Hv.
Qed.

Lemma noServersMessage_not_empty : noServersMessage <> EmptyString.
Proof. discriminate. Qed.

(** The validator reads the server dropdown and nothing else. *)
Lemma formValidation_result_depends_on_server_only (e e' : Env) (p p' : Page) :
  value (_serverGroupDropdown p) = value (_serverGroupDropdown p') ->
  out_result (formValidation e p) = out_result (formValidation e' p').
Proof.
  intros Hv. destruct (value (_serverGroupDropdown p)) as [cv|] eqn:Hp.
  - rewrite (formValidation_selected e p cv Hp), (formValidation_selected e' p' cv); auto.
  - rewrite (formValidation_undefined e p Hp), (formValidation_undefined e' p'); auto.
Qed.



(** *** The navigation validator *)

(** C9: a backward navigation is allowed at once, without validating and
    without touching the page; on any other attempt the validator answers
    false exactly when [formValidation] returns a message that is not
    empty, and true exactly when it returns the empty one. *)
Theorem onEnter_validator_navigation (e : Env) (p : Page) (pcInfo : PageChangeInfo) :
  (newPage pcInfo < lastPage pcInfo ->
   onEnter_validator pcInfo e p =
     {| out_trace := []; out_page := p; out_result := inr true |})
  /\ (lastPage pcInfo <= newPage pcInfo ->
      forall msg, out_result (formValidation e p) = inr msg ->
        (out_result (onEnter_validator pcInfo e p) = inr false <-> msg <> EmptyString)
        /\ (out_result (onEnter_validator pcInfo e p) = inr true <-> msg = EmptyString)).
Proof.
  split.
  - intros Hback. unfold onEnter_validator.
    apply Z.ltb_lt in Hback. now rewrite Hback.
  - intros Hfwd msg Hmsg. unfold onEnter_validator.
    apply Z.ltb_ge in Hfwd. rewrite Hfwd.
    assert (Hmsg' : out_result (formValidation e (with_liveValidation true p)) = inr msg).
    { rewrite <- Hmsg. now apply formValidation_result_depends_on_server_only. }
    unfold bind, modify. cbn [out_result out_page out_trace].
    destruct (formValidation e (with_liveValidation true p)) as [t pg res].
    cbn [out_result out_page out_trace] in *. subst res.
    destruct (String.eqb_spec msg EmptyString) as [Heq|Hne]; cbn.
    + split; split; intros H; try discriminate; congruence.
    + split; split; intros H; try discriminate; congruence.
Qed.

Lemma onEnter_validator_navigation_witness :
  onEnter_validator backward envLoaded loadedPage =
    {| out_trace := []; out_page := loadedPage; out_result := inr true |}
  /\ (out_result (onEnter_validator forward envLoaded loadedPage) = inr true
      <-> EmptyString = EmptyString).
Proof.
  split.
  - apply (onEnter_validator_navigation envLoaded loadedPage backward). reflexivity.
  - apply (onEnter_validator_navigation envLoaded loadedPage forward).
    + vm_compute. discriminate.
    + reflexivity.
Defined.

(** With no server in the dropdown the validator has nothing to read: after
    the switch to an account without subscriptions a forward navigation
    ends in a TypeError instead of a message. *)
Example validator_throws_without_server :
  value (_serverGroupDropdown
           (after (AccountChosen (accountCategoryValue accountB))
              (envTwoAccounts None) loadedPageTwo)) = None
  /\ out_result
       (onEnter_validator forward (envTwoAccounts None)
          (after (AccountChosen (accountCategoryValue accountB))
             (envTwoAccounts None) loadedPageTwo)) = inl TypeError.
Proof. split; reflexivity. Qed.

(** *** Running the page's methods *)

Lemma run_bind_ret {A B} (x : A) (k : A -> M B) e p : bind (ret x) k e p = k x e p.
Proof. unfold bind, ret; cbn. now destruct (k x e p). Qed.

Lemma run_bind_throw {A B} (ex : exn) (k : A -> M B) e p :
  bind (throw ex) k e p = throw ex e p.
Proof. reflexivity. Qed.

Lemma run_bind_get {B} (k : Page -> M B) e p : bind get k e p = k p e p.
Proof. unfold bind, get; cbn. now destruct (k p e p). Qed.

Lemma run_bind_ask {B} (k : Env -> M B) e p : bind ask k e p = k e e p.
Proof. unfold bind, ask; cbn. now destruct (k e e p). Qed.

Lemma run_bind_modify {B} (f : Page -> Page) (k : unit -> M B) e p :
  bind (modify f) k e p = k tt e (f p).
Proof. unfold bind, modify; cbn. now destruct (k tt e (f p)). Qed.

Lemma run_bind_showErrorMessage {B} (s : string) (k : unit -> M B) e p :
  bind (showErrorMessage s) k e p = k tt e (with_message s p).
Proof. apply run_bind_modify. Qed.

Lemma run_bind_defined {A B} (o : option A) (k : A -> M B) e p :
  bind (defined o) k e p =
    match o with
    | Some x => k x e p
    | None => {| out_trace := []; out_page := p; out_result := inl TypeError |}
    end.
Proof. destruct o; [apply run_bind_ret | reflexivity]. Qed.

Lemma run_bind_await {A B} (c : Call) (answer : Env -> exn + A) (k : A -> M B) e p :
  bind (await c answer) k e p =
    match answer e with
    | inl ex => {| out_trace := [ {| ev_call := c; ev_page := p |} ];
                   out_page := p; out_result := inl ex |}
    | inr x => prepend [ {| ev_call := c; ev_page := p |} ] (k x e p)
    end.
Proof. unfold bind, await; cbn. now destruct (answer e). Qed.

Lemma run_bind_spawn {B} (m : M unit) (k : unit -> M B) e p :
  bind (spawn m) k e p = prepend (out_trace (m e p)) (k tt e (out_page (m e p))).
Proof. reflexivity. Qed.

Lemma run_bind_bind {A B C} (m : M A) (k : A -> M B) (k' : B -> M C) e p :
  bind (bind m k) k' e p = bind m (fun x => bind (k x) k') e p.
Proof.
  unfold bind. destruct (m e p) as [t q [ex|x]]; cbn; [reflexivity|].
  destruct (k x e q) as [t' q' [ex|y]]; cbn; [reflexivity|].
  now rewrite app_assoc.
Qed.

Lemma run_bind_ret_tt (m : M unit) e p : bind m (fun _ => ret tt) e p = m e p.
Proof.
  unfold bind. destruct (m e p) as [t q [ex|[]]]; cbn; [reflexivity|].
  now rewrite app_nil_r.
Qed.

(** [bind] run from the outcome of its first part. *)
Lemma run_bind {A B} (m : M A) (k : A -> M B) e p :
  bind m k e p =
    match out_result (m e p) with
    | inl ex => {| out_trace := out_trace (m e p); out_page := out_page (m e p);
                   out_result := inl ex |}
    | inr x => prepend (out_trace (m e p)) (k x e (out_page (m e p)))
    end.
Proof. reflexivity. Qed.

Ltac page_cbn :=
  cbn [out_trace out_page out_result prepend
       _azureAccountsDropdown _azureAccountsLoader _azureSubscriptionsDropdown
       _azureSubscriptionLoader _serverGroupDropdown _serverGroupLoader
       _accountsMap _subscriptionsMap model message liveValidation
       with_azureAccountsDropdown with_azureAccountsLoader
       with_azureSubscriptionsDropdown with_azureSubscriptionLoader
       with_serverGroupDropdown with_serverGroupLoader with_accountsMap
       with_subscriptionsMap with_model with_message with_liveValidation
       azureAccount azureSubscription azureSubscriptionDisplayName securityToken
       azureServerName azureResouceGroup
       set_azureAccount set_azureSubscription set_azureSubscriptionDisplayName
       set_securityToken set_azureServerName set_azureResouceGroup
       values value updateProperties_values addDropdownValues selectValue
       ev_call ev_page app].

Ltac page_step :=
  first [ rewrite run_bind_modify | rewrite run_bind_showErrorMessage
        | rewrite run_bind_get | rewrite run_bind_ask
        | rewrite run_bind_ret | rewrite run_bind_throw
        | rewrite run_bind_bind | rewrite run_bind_spawn ];
  cbv beta.

(** Runs the straight-line part of a method: up to the next outside call,
    the next read of a value that may be undefined, or the next branch. *)
Ltac page_run := repeat page_step; page_cbn.

(** The request of the server list, as [getRequest] sends it. *)
Lemma getRequest_outcome (e : Env) (p : Page) (url : string) (tok : Token) :
  securityToken (model p) = Some tok ->
  getRequest url e p =
    {| out_trace := [ {| ev_call := CallAxiosGet url
                           [ ("Content-Type", "application/json");
                             ("Authorization", "Bearer " ++ token tok) ];
                         ev_page := p |} ];
       out_page := p;
       out_result :=
         match transport e url [ ("Content-Type", "application/json");
                                 ("Authorization", "Bearer " ++ token tok) ] with
         | NetworkError reason => inl (Rejected reason)
         | Delivered r => inr r
         end |}.
Proof.
  intros Htok. unfold getRequest. page_run.
  rewrite run_bind_defined, Htok. cbv zeta.
  unfold axios_get. rewrite run_bind_await. unfold axios_settle.
  destruct (transport e url _) as [reason|r]; [reflexivity|].
  rewrite orb_true_r. reflexivity.
Qed.

Lemma getRequest_no_token (e : Env) (p : Page) (url : string) :
  securityToken (model p) = None ->
  getRequest url e p = {| out_trace := []; out_page := p; out_result := inl TypeError |}.
Proof.
  intros Htok. unfold getRequest. page_run.
  now rewrite run_bind_defined, Htok.
Qed.

(** [getRequest] never changes the page. *)
Lemma getRequest_page (e : Env) (p : Page) (url : string) :
  out_page (getRequest url e p) = p.
Proof.
  destruct (securityToken (model p)) as [tok|] eqn:Htok.
  - now rewrite (getRequest_outcome e p url tok Htok).
  - now rewrite (getRequest_no_token e p url Htok).
Qed.

(** No upstream subscription: the server list is emptied, nothing is
    requested. *)
Lemma populateServerGroupDropdown_no_subscription (e : Env) (p : Page) :
  value (_azureSubscriptionsDropdown p) = None ->
  populateServerGroupDropdown e p =
    {| out_trace := [];
       out_page := with_serverGroupLoader false
                     (with_serverGroupDropdown (updateProperties_values [])
                        (with_serverGroupLoader true p));
       out_result := inr tt |}.
Proof.
  intros Hsub. unfold populateServerGroupDropdown. page_run.
  rewrite Hsub. page_run. reflexivity.
Qed.

(** The server reload when the list request is answered: its whole
    outcome, for an empty and for a non-empty [value] array. *)
Lemma populateServerGroupDropdown_response
    (e : Env) (p : Page) (cv : CategoryValue) (tok : Token) (r : AxiosResponse)
    (vs : list ServerEntry) :
  value (_azureSubscriptionsDropdown p) = Some cv ->
  displayName cv <> EmptyString ->
  securityToken (model p) = Some tok ->
  transport e (serversUrl (azureSubscription (model p)))
    [ ("Content-Type", "application/json");
      ("Authorization", "Bearer " ++ token tok) ] = Delivered r ->
  data_value r = Some vs ->
  populateServerGroupDropdown e p =
    {| out_trace := [ {| ev_call := CallAxiosGet (serversUrl (azureSubscription (model p)))
                           [ ("Content-Type", "application/json");
                             ("Authorization", "Bearer " ++ token tok) ];
                         ev_page := with_serverGroupLoader true p |} ];
       out_page :=
         match vs with
         | [] => with_serverGroupLoader false
                   (with_serverGroupDropdown (updateProperties_values [noServersFound])
                      (with_serverGroupLoader true p))
         | v :: _ =>
             with_serverGroupLoader false
               (with_model (set_azureResouceGroup (Some (extractResourceGroup (srv_id v))))
                  (with_model (set_azureServerName (Some (srv_name v)))
                     (with_serverGroupDropdown (addDropdownValues (map serverCategoryValue vs))
                        (with_serverGroupLoader true p))))
         end;
       out_result := inr tt |}.
Proof.
  intros Hsub Hname Htok Hnet Hval.
  unfold populateServerGroupDropdown. page_run. rewrite Hsub.
  destruct (String.eqb_spec (displayName cv) EmptyString) as [|_]; [contradiction|].
  cbv zeta. rewrite run_bind.
  rewrite (getRequest_outcome e (with_serverGroupLoader true p) _ tok Htok).
  page_cbn. rewrite Hnet. rewrite run_bind_defined, Hval.
  destruct vs as [|v vs']; cbn [length Nat.eqb]; page_run; [reflexivity|].
  cbn [map head serverCategoryValue]. page_run.
  cbn [displayName name]. reflexivity.
Qed.

(** C2: when the subscription dropdown shows a subscription, the model holds
    a token and the server list comes back with an empty [value] array, the
    reload ends normally, the server dropdown holds exactly the entry
    No servers found with an empty name, and the validator run on that page
    returns a message that is not empty. *)
Theorem populateServerGroupDropdown_empty_response
    (e e' : Env) (p : Page) (cv : CategoryValue) (tok : Token) (r : AxiosResponse) :
  value (_azureSubscriptionsDropdown p) = Some cv ->
  displayName cv <> EmptyString ->
  securityToken (model p) = Some tok ->
  transport e (serversUrl (azureSubscription (model p)))
    [ ("Content-Type", "application/json");
      ("Authorization", "Bearer " ++ token tok) ] = Delivered r ->
  data_value r = Some [] ->
  out_result (populateServerGroupDropdown e p) = inr tt
  /\ values (_serverGroupDropdown (out_page (populateServerGroupDropdown e p)))
     = [ {| displayName := "No servers found"; name := EmptyString |} ]
  /\ someErrorMessage e' (out_page (populateServerGroupDropdown e p)).
Proof.
  intros Hsub Hname Htok Hnet Hval.
  rewrite (populateServerGroupDropdown_response e p cv tok r [] Hsub Hname Htok Hnet Hval).
  page_cbn. repeat split.
  exists noServersMessage. split; [|exact noServersMessage_not_empty].
  now rewrite (formValidation_selected e' _ noServersFound).
Qed.

Lemma populateServerGroupDropdown_empty_response_witness :
  out_result (populateServerGroupDropdown envNoServers loadedPage) = inr tt
  /\ values (_serverGroupDropdown (out_page (populateServerGroupDropdown envNoServers loadedPage)))
     = [ {| displayName := "No servers found"; name := EmptyString |} ]
  /\ someErrorMessage envLoaded (out_page (populateServerGroupDropdown envNoServers loadedPage)).
Proof.
  apply (populateServerGroupDropdown_empty_response envNoServers envLoaded loadedPage
           (subscriptionCategoryValue subDev) {| token := "tok" |}
           {| status := 200; data_value := Some [] |});
    try reflexivity.
  vm_compute. discriminate.
Defined.

(** *** The subscription reload *)

(** C7: when the account dropdown shows an account and [getSubscriptions]
    answers with an undefined or empty list, the subscription dropdown is
    left without any entry and without a value, the server reload runs on
    that page (no upstream subscription), nothing is thrown, no server
    request is sent, and the server dropdown ends up empty. *)
Theorem populateAzureSubscriptionsDropdown_no_subscriptions
    (e : Env) (p : Page) (acc : CategoryValue) (subs : option (list Subscription)) :
  value (_azureAccountsDropdown p) = Some acc ->
  getSubscriptions e (_accountsMap p !! name acc) = inr subs ->
  subs = None \/ subs = Some [] ->
  exists p1,
    p1 = with_azureSubscriptionLoader false
           (with_azureSubscriptionsDropdown (updateProperties_values [])
              (with_azureSubscriptionLoader true p))
    /\ value (_azureSubscriptionsDropdown p1) = None
    /\ out_page (populateAzureSubscriptionsDropdown e p)
       = out_page (populateServerGroupDropdown e p1)
    /\ out_result (populateServerGroupDropdown e p1) = inr tt
    /\ out_result (populateAzureSubscriptionsDropdown e p) = inr tt
    /\ calls (out_trace (populateAzureSubscriptionsDropdown e p))
       = [CallGetAzurecoreApi; CallGetSubscriptions (_accountsMap p !! name acc)]
    /\ _azureSubscriptionsDropdown (out_page (populateAzureSubscriptionsDropdown e p))
       = {| values := []; value := None |}
    /\ _serverGroupDropdown (out_page (populateAzureSubscriptionsDropdown e p))
       = {| values := []; value := None |}.
Proof.
  intros Hacc Hsubs Hempty.
  eexists. split; [reflexivity|]. split; [reflexivity|].
  assert (Hrun : populateAzureSubscriptionsDropdown e p =
    prepend [ {| ev_call := CallGetAzurecoreApi;
                 ev_page := with_azureSubscriptionLoader true p |};
              {| ev_call := CallGetSubscriptions (_accountsMap p !! name acc);
                 ev_page := with_azureSubscriptionLoader true p |} ]
      (populateServerGroupDropdown e
         (with_azureSubscriptionLoader false
            (with_azureSubscriptionsDropdown (updateProperties_values [])
               (with_azureSubscriptionLoader true p))))).
  { unfold populateAzureSubscriptionsDropdown. page_run.
    rewrite run_bind_await. page_run. rewrite Hacc.
    rewrite run_bind_await. page_cbn. rewrite Hsubs.
    destruct Hempty as [-> | ->]; page_run; rewrite run_bind_ret_tt; reflexivity. }
  rewrite Hrun, populateServerGroupDropdown_no_subscription by reflexivity.
  repeat split; reflexivity.
Qed.

Lemma populateAzureSubscriptionsDropdown_no_subscriptions_witness :
  out_result (populateAzureSubscriptionsDropdown (envTwoAccounts (Some []))
                (with_azureAccountsDropdown (selectValue (accountCategoryValue accountB))
                   loadedPageTwo)) = inr tt.
Proof.
  destruct (populateAzureSubscriptionsDropdown_no_subscriptions
              (envTwoAccounts (Some []))
              (with_azureAccountsDropdown (selectValue (accountCategoryValue accountB))
                 loadedPageTwo)
              (accountCategoryValue accountB) (Some []))
    as (p1 & _ & _ & _ & _ & Hres & _); [reflexivity | reflexivity | now right |].
  exact Hres.
Defined.

(** *** The account reload *)

(** C6 (as stated, refuted): after a load that filled the page, the
    credential store loses its accounts and Refresh is clicked: the
    subscription and the server dropdown still hold their entries. *)
Lemma refresh_without_accounts_keeps_dependents :
  values (_azureSubscriptionsDropdown (after RefreshClicked envNoAccounts loadedPage))
    = [subscriptionCategoryValue subDev]
  /\ values (_serverGroupDropdown (after RefreshClicked envNoAccounts loadedPage))
    = [serverCategoryValue srv1]
  /\ ~ (values (_azureSubscriptionsDropdown (after RefreshClicked envNoAccounts loadedPage)) = []
        /\ values (_serverGroupDropdown (after RefreshClicked envNoAccounts loadedPage)) = []).
Proof.
  split; [reflexivity|]. split; [reflexivity|].
  intros [H _]. vm_compute in H. discriminate H.
Qed.

(** C6 (amended): when the credential store answers with no account, the
    account reload shows the sign-in warning, makes no other outside call
    (no subscription request), and leaves the subscription and server
    dropdowns, the maps and the model exactly as they were: empty if they
    were empty. *)
Theorem populateAzureAccountsDropdown_no_accounts (e : Env) (p : Page) :
  getAllAccounts e = inr [] ->
  out_result (populateAzureAccountsDropdown e p) = inr tt
  /\ calls (out_trace (populateAzureAccountsDropdown e p)) = [CallGetAllAccounts]
  /\ out_page (populateAzureAccountsDropdown e p)
     = with_message "Sign in to an Azure account first" (with_azureAccountsLoader true p)
  /\ message (out_page (populateAzureAccountsDropdown e p))
     = "Sign in to an Azure account first"
  /\ _azureSubscriptionsDropdown (out_page (populateAzureAccountsDropdown e p))
     = _azureSubscriptionsDropdown p
  /\ _serverGroupDropdown (out_page (populateAzureAccountsDropdown e p))
     = _serverGroupDropdown p
  /\ model (out_page (populateAzureAccountsDropdown e p)) = model p
  /\ (values (_azureSubscriptionsDropdown p) = [] ->
      values (_serverGroupDropdown p) = [] ->
      values (_azureSubscriptionsDropdown (out_page (populateAzureAccountsDropdown e p))) = []
      /\ values (_serverGroupDropdown (out_page (populateAzureAccountsDropdown e p))) = []).
Proof.
  intros Hacc. unfold populateAzureAccountsDropdown. page_run.
  rewrite run_bind_await, Hacc. cbn [length Nat.eqb]. page_run.
  repeat split; auto.
Qed.

Lemma populateAzureAccountsDropdown_no_accounts_witness :
  message (out_page (populateAzureAccountsDropdown envNoAccounts initialPage))
  = "Sign in to an Azure account first".
Proof.
  apply (populateAzureAccountsDropdown_no_accounts envNoAccounts initialPage).
  reflexivity.
Defined.

(** *** Changing the account *)

(** C3 (as stated, refuted): alice, her subscription and its server are
    selected; the user picks bob.  At the moment the subscription list is
    asked for, the earlier subscription and server are still set; and when
    bob turns out to have no subscription, the model keeps them for good. *)
Lemma account_change_keeps_stale_selection :
  (exists q,
      pageAtFirstFetch
        (out_trace (handle (AccountChosen (accountCategoryValue accountB))
                      (envTwoAccounts None) loadedPageTwo)) = Some q
      /\ subscriptionIsSet q /\ serverIsSet q
      /\ value (_azureSubscriptionsDropdown q) = Some (subscriptionCategoryValue subDev)
      /\ azureSubscription (model q) = Some "S1"
      /\ value (_serverGroupDropdown q) = Some (serverCategoryValue srv1)
      /\ azureServerName (model q) = Some "srv1")
  /\ azureSubscription
       (model (after (AccountChosen (accountCategoryValue accountB))
                 (envTwoAccounts None) loadedPageTwo)) = Some "S1"
  /\ azureServerName
       (model (after (AccountChosen (accountCategoryValue accountB))
                 (envTwoAccounts None) loadedPageTwo)) = Some "srv1".
Proof.
  split; [|split; reflexivity].
  eexists. split; [vm_compute; reflexivity|].
  split; [left; discriminate|].
  split; [split; discriminate|].
  repeat split; reflexivity.
Qed.

(** C3 (amended): changing the account records the account in the model and
    starts the subscription reload without clearing anything: the first
    fetch is the subscription request, and at that moment the page differs
    from the page before the change only in the account (dropdown value and
    model) and the subscription loader's flag, so the subscription and the
    server, dropdowns and model alike, still hold their earlier values. *)
Theorem account_change_fetches_before_clearing (e : Env) (p : Page) (cv : CategoryValue) :
  (exists rest,
      out_trace (handle (AccountChosen cv) e p)
      = {| ev_call := CallGetAzurecoreApi; ev_page := pageAtSubscriptionFetch cv p |}
        :: {| ev_call := CallGetSubscriptions (_accountsMap p !! name cv);
              ev_page := pageAtSubscriptionFetch cv p |}
        :: rest)
  /\ pageAtFirstFetch (out_trace (handle (AccountChosen cv) e p))
     = Some (pageAtSubscriptionFetch cv p)
  /\ _azureSubscriptionsDropdown (pageAtSubscriptionFetch cv p) = _azureSubscriptionsDropdown p
  /\ _serverGroupDropdown (pageAtSubscriptionFetch cv p) = _serverGroupDropdown p
  /\ azureSubscription (model (pageAtSubscriptionFetch cv p)) = azureSubscription (model p)
  /\ azureServerName (model (pageAtSubscriptionFetch cv p)) = azureServerName (model p)
  /\ azureResouceGroup (model (pageAtSubscriptionFetch cv p)) = azureResouceGroup (model p).
Proof.
  assert (Htrace : exists rest,
      out_trace (handle (AccountChosen cv) e p)
      = {| ev_call := CallGetAzurecoreApi; ev_page := pageAtSubscriptionFetch cv p |}
        :: {| ev_call := CallGetSubscriptions (_accountsMap p !! name cv);
              ev_page := pageAtSubscriptionFetch cv p |}
        :: rest).
  { unfold handle, onAzureAccountValueChanged, populateAzureSubscriptionsDropdown,
      pageAtSubscriptionFetch.
    page_run. unfold spawn. page_run.
    rewrite run_bind_await. page_run. rewrite run_bind_await. page_cbn.
    destruct (getSubscriptions e (_accountsMap p !! name cv)) as [ex|subs];
      page_cbn; eexists; reflexivity. }
  split; [exact Htrace|].
  destruct Htrace as [rest ->]. repeat split.
Qed.

(** *** Sorting *)

Section ArraySortFacts.
Context {A : Type} (compareFn : A -> A -> Z).

Hypothesis bothWays : forall a b, 0 < compareFn a b -> compareFn b a <= 0.

Lemma insertSorted_HdRel (a x : A) (l : list A) :
  notAfter compareFn a x -> HdRel (notAfter compareFn) a l ->
  HdRel (notAfter compareFn) a (insertSorted compareFn x l).
Proof.
  intros Hax Hal. destruct l as [|y l']; cbn.
  - now constructor.
  - destruct (compareFn x y <=? 0); constructor; auto.
    now inversion Hal.
Qed.

Lemma insertSorted_Sorted (x : A) (l : list A) :
  Sorted (notAfter compareFn) l -> Sorted (notAfter compareFn) (insertSorted compareFn x l).
Proof.
  induction 1 as [|y l' Hsorted IH Hhd]; cbn.
  - repeat constructor.
  - destruct (Z.leb_spec (compareFn x y) 0) as [Hle|Hgt].
    + constructor; [now constructor | now constructor].
    + constructor; [exact IH|].
      apply insertSorted_HdRel; [|exact Hhd].
      unfold notAfter. now apply bothWays.
Qed.

Lemma Array_sort_Sorted (l : list A) :
  Sorted (notAfter compareFn) (Array_sort compareFn l).
Proof.
  induction l as [|x l IH]; cbn; [constructor|].
  now apply insertSorted_Sorted.
Qed.

End ArraySortFacts.

Lemma insertSorted_Permutation {A} (compareFn : A -> A -> Z) (x : A) (l : list A) :
  Permutation (x :: l) (insertSorted compareFn x l).
Proof.
  induction l as [|y l IH]; cbn; [reflexivity|].
  destruct (compareFn x y <=? 0); [reflexivity|].
  rewrite perm_swap. now constructor.
Qed.

Lemma Array_sort_Permutation {A} (compareFn : A -> A -> Z) (l : list A) :
  Permutation l (Array_sort compareFn l).
Proof.
  induction l as [|x l IH]; cbn; [constructor|].
  rewrite <- insertSorted_Permutation. now constructor.
Qed.

(** A list already in order is left as it is: elements that compare equal
    keep the order they came in. *)
Lemma Array_sort_already_sorted {A} (compareFn : A -> A -> Z) (l : list A) :
  Sorted (notAfter compareFn) l -> Array_sort compareFn l = l.
Proof.
  induction 1 as [|x l Hsorted IH Hhd]; cbn; [reflexivity|].
  fold (Array_sort compareFn l). rewrite IH.
  destruct Hhd as [|y l' Hxy]; cbn; [reflexivity|].
  apply Z.leb_le in Hxy. now rewrite Hxy.
Qed.

Lemma codeUnitCompare_bothWays (a b : string) :
  0 < codeUnitCompare a b -> codeUnitCompare b a <= 0.
Proof.
  unfold codeUnitCompare. rewrite (String.compare_antisym b a).
  destruct (String.compare a b); cbn; lia.
Qed.

Example sort_Dev_alpha :
  map sub_name (Array_sort (compareSubscriptions envLoaded) [subDev; subAlpha])
  = ["alpha"; "Dev"].
Proof. reflexivity. Qed.

(** Names equal up to case keep the order the provider gave. *)
Example sort_tie_keeps_order :
  map sub_id
    (Array_sort (compareSubscriptions envLoaded)
       [ {| sub_id := "S1"; sub_name := "Dev"; sub_tenant := None |};
         {| sub_id := "S2"; sub_name := "dev"; sub_tenant := None |};
         {| sub_id := "S3"; sub_name := "DEV"; sub_tenant := None |} ])
  = ["S1"; "S2"; "S3"].
Proof. reflexivity. Qed.


(** *** What a run leaves alone *)

Section Always.
Context (R : Page -> Page -> Prop).
Hypothesis R_refl : forall p, R p p.

Lemma always_ret {A} (x : A) : always R (ret x).
Proof. intros e p. apply R_refl. Qed.

Lemma always_throw {A} (ex : exn) : always R (@throw A ex).
Proof. intros e p. apply R_refl. Qed.

Lemma always_get : always R get.
Proof. intros e p. apply R_refl. Qed.

Lemma always_ask : always R ask.
Proof. intros e p. apply R_refl. Qed.

Lemma always_await {A} (c : Call) (answer : Env -> exn + A) : always R (await c answer).
Proof. intros e p. apply R_refl. Qed.

Lemma always_defined {A} (o : option A) : always R (defined o).
Proof. destruct o; [apply always_ret | apply always_throw]. Qed.

Lemma always_getRequest (url : string) : always R (getRequest url).
Proof. intros e p. rewrite getRequest_page. apply R_refl. Qed.

End Always.

Lemma always_modify (R : Page -> Page -> Prop) (f : Page -> Page) :
  (forall p, R p (f p)) -> always R (modify f).
Proof. intros Hf e p. apply Hf. Qed.

Lemma always_spawn (R : Page -> Page -> Prop) (m : M unit) :
  always R m -> always R (spawn m).
Proof. intros Hm e p. apply Hm. Qed.

(** A run in two parts: the relation of the first part, then that of the
    second, make up the relation of the whole; the first part alone does
    when it throws. *)
Lemma always_bind_gen (R1 R2 R : Page -> Page -> Prop) {A B} (m : M A) (k : A -> M B) :
  (forall p q, R1 p q -> R p q) ->
  (forall p q r, R1 p q -> R2 q r -> R p r) ->
  always R1 m -> (forall x, always R2 (k x)) -> always R (bind m k).
Proof.
  intros Hthrow Hseq Hm Hk e p. rewrite run_bind.
  specialize (Hm e p).
  destruct (out_result (m e p)) as [ex|x]; cbn [out_page prepend]; [auto|].
  eapply Hseq; [exact Hm | apply Hk].
Qed.

Lemma always_bind (R : Page -> Page -> Prop) {A B} (m : M A) (k : A -> M B) :
  (forall p q r, R p q -> R q r -> R p r) ->
  always R m -> (forall x, always R (k x)) -> always R (bind m k).
Proof. intros Htrans. apply always_bind_gen; auto. Qed.

Lemma unchanged_refl {X} (f : Page -> X) (p : Page) : unchanged f p p.
Proof. reflexivity. Qed.

Lemma unchanged_trans {X} (f : Page -> X) (p q r : Page) :
  unchanged f p q -> unchanged f q r -> unchanged f p r.
Proof. unfold unchanged. congruence. Qed.

(** Walks through a method body one construct at a time, for a relation
    that is reflexive ([tac_refl]) and transitive ([tac_trans]); [tac_step]
    proves that a [modify] respects the relation. *)
Ltac walk_with tac_refl tac_trans tac_step :=
  lazymatch goal with
  | |- always _ (bind _ _) => apply always_bind; [tac_trans | | intros ?]
  | |- always _ (modify _) => apply always_modify; tac_step
  | |- always _ (showErrorMessage _) => apply always_modify; tac_step
  | |- always _ (ret _) => apply always_ret; tac_refl
  | |- always _ (throw _) => apply always_throw; tac_refl
  | |- always _ get => apply always_get; tac_refl
  | |- always _ ask => apply always_ask; tac_refl
  | |- always _ (await _ _) => apply always_await; tac_refl
  | |- always _ (defined _) => apply always_defined; tac_refl
  | |- always _ (getRequest _) => apply always_getRequest; tac_refl
  | |- always _ (spawn _) => apply always_spawn
  | |- always _ (if ?c then _ else _) => destruct c
  | |- always _ (match ?x with _ => _ end) => destruct x
  | |- always _ (let _ := _ in _) => cbv zeta
  end.

(** Every step keeps the part [f] of the page, so the whole method does. *)
Ltac unchanged_step :=
  walk_with ltac:(apply unchanged_refl) ltac:(apply unchanged_trans)
            ltac:(intros ?; reflexivity).

Lemma populateServerGroupDropdown_keeps_accounts :
  always (unchanged _azureAccountsDropdown) populateServerGroupDropdown.
Proof. unfold populateServerGroupDropdown. repeat unchanged_step. Qed.

Lemma populateServerGroupDropdown_keeps_subscriptions :
  always (unchanged _azureSubscriptionsDropdown) populateServerGroupDropdown.
Proof. unfold populateServerGroupDropdown. repeat unchanged_step. Qed.

Lemma populateAzureSubscriptionsDropdown_keeps_accounts :
  always (unchanged _azureAccountsDropdown) populateAzureSubscriptionsDropdown.
Proof.
  unfold populateAzureSubscriptionsDropdown.
  repeat first [ apply populateServerGroupDropdown_keeps_accounts | unchanged_step ].
Qed.

(** *** The order of the candidates *)

(** C4 (as stated, refuted): the server list comes back as b, a and is
    shown as b, a, which is not ascending. *)
Lemma servers_keep_response_order :
  map displayName (values (_serverGroupDropdown (after Initialize envServersBA initialPage)))
    = ["b"; "a"]
  /\ ~ Sorted (byDisplayName envServersBA)
         (values (_serverGroupDropdown (after Initialize envServersBA initialPage))).
Proof.
  split; [reflexivity|].
  intros Hsorted.
  assert (Hvals : values (_serverGroupDropdown (after Initialize envServersBA initialPage))
                  = [serverCategoryValue srvB; serverCategoryValue srvA]) by reflexivity.
  rewrite Hvals in Hsorted.
  apply Sorted_inv in Hsorted as [_ Hhd]. apply HdRel_inv in Hhd.
  vm_compute in Hhd. now apply Hhd.
Qed.

(** C4 (amended): the subscriptions are shown in ascending order of their
    lower-cased names (the display name is the name followed by the id;
    names that compare equal keep the provider's order); the servers are
    shown in the order of the response, and the accounts in the order the
    credential store returned them. *)
Theorem candidates_order (e : Env) :
  (forall (p : Page) (acc : CategoryValue) (subs : list Subscription),
      value (_azureAccountsDropdown p) = Some acc ->
      getSubscriptions e (_accountsMap p !! name acc) = inr (Some subs) ->
      subs <> [] ->
      values (_azureSubscriptionsDropdown (out_page (populateAzureSubscriptionsDropdown e p)))
        = map subscriptionCategoryValue (Array_sort (compareSubscriptions e) subs)
      /\ Permutation subs (Array_sort (compareSubscriptions e) subs)
      /\ (comparesBothWays e ->
          Sorted (bySubscriptionName e) (Array_sort (compareSubscriptions e) subs)))
  /\ (forall (p : Page) (cv : CategoryValue) (tok : Token) (r : AxiosResponse)
        (vs : list ServerEntry),
      value (_azureSubscriptionsDropdown p) = Some cv ->
      displayName cv <> EmptyString ->
      securityToken (model p) = Some tok ->
      transport e (serversUrl (azureSubscription (model p)))
        [ ("Content-Type", "application/json");
          ("Authorization", "Bearer " ++ token tok) ] = Delivered r ->
      data_value r = Some vs ->
      vs <> [] ->
      values (_serverGroupDropdown (out_page (populateServerGroupDropdown e p)))
        = map serverCategoryValue vs)
  /\ (forall (p : Page) (accounts : list Account),
      getAllAccounts e = inr accounts ->
      accounts <> [] ->
      values (_azureAccountsDropdown (out_page (populateAzureAccountsDropdown e p)))
        = map accountCategoryValue accounts).
Proof.
  split; [|split].
  - intros p acc subs Hacc Hsubs Hne.
    split; [|split].
    + destruct subs as [|s l]; [contradiction|].
      unfold populateAzureSubscriptionsDropdown. page_run.
      rewrite run_bind_await. page_run. rewrite Hacc.
      rewrite run_bind_await. page_cbn. rewrite Hsubs. page_run.
      match goal with
      | |- context [bind ?m ?k e ?q] =>
          assert (Hrest : always (unchanged _azureSubscriptionsDropdown) (bind m k))
            by (repeat first [ apply populateServerGroupDropdown_keeps_subscriptions
                             | unchanged_step ]);
          rewrite (Hrest e q)
      end.
      reflexivity.
    + apply Array_sort_Permutation.
    + intros Hcmp. apply Array_sort_Sorted.
      intros a b. apply Hcmp.
  - intros p cv tok r vs Hsub Hname Htok Hnet Hval Hne.
    rewrite (populateServerGroupDropdown_response e p cv tok r vs Hsub Hname Htok Hnet Hval).
    destruct vs as [|v vs']; [contradiction|]. reflexivity.
  - intros p accounts Hacc Hne.
    destruct accounts as [|a l]; [contradiction|].
    unfold populateAzureAccountsDropdown. page_run.
    rewrite run_bind_await, Hacc. cbn [length Nat.eqb]. page_run.
    rewrite (populateAzureSubscriptionsDropdown_keeps_accounts e _).
    reflexivity.
Qed.

Lemma candidates_order_witness :
  (map displayName
     (values (_azureSubscriptionsDropdown
                (out_page (populateAzureSubscriptionsDropdown envSubsDevAlpha loadedPage))))
   = ["alpha - S2"; "Dev - S1"]
   /\ Sorted (bySubscriptionName envSubsDevAlpha)
        (Array_sort (compareSubscriptions envSubsDevAlpha) [subDev; subAlpha]))
  /\ values (_serverGroupDropdown (out_page (populateServerGroupDropdown envServersBA loadedPage)))
     = [serverCategoryValue srvB; serverCategoryValue srvA]
  /\ values (_azureAccountsDropdown
               (out_page (populateAzureAccountsDropdown (envTwoAccounts None) initialPage)))
     = [accountCategoryValue accountA; accountCategoryValue accountB].
Proof.
  split; [|split].
  - destruct (proj1 (candidates_order envSubsDevAlpha) loadedPage
                (accountCategoryValue accountA) [subDev; subAlpha])
      as (Hvals & _ & Hsorted); [reflexivity | reflexivity | discriminate |].
    split.
    + rewrite Hvals. reflexivity.
    + apply Hsorted. intros a b. apply codeUnitCompare_bothWays.
  - apply (proj1 (proj2 (candidates_order envServersBA)) loadedPage
             (subscriptionCategoryValue subDev) {| token := "tok" |}
             {| status := 200; data_value := Some [srvB; srvA] |} [srvB; srvA]);
      try reflexivity; discriminate.
  - apply (proj2 (proj2 (candidates_order (envTwoAccounts None))) initialPage
             [accountA; accountB]); [reflexivity | discriminate].
Defined.

(** *** The resource group *)





Lemma always_weaken (R1 R2 : Page -> Page -> Prop) {A} (m : M A) :
  (forall p q, R1 p q -> R2 p q) -> always R1 m -> always R2 m.
Proof. intros Hsub Hm e p. apply Hsub, Hm. Qed.


















(** The resource group is not refreshed when the list turns out empty: the
    earlier one stays in the model next to the No servers found entry. *)
Example resourceGroup_stays_with_sentinel :
  value (_serverGroupDropdown (out_page (populateServerGroupDropdown envNoServers loadedPage)))
    = Some noServersFound
  /\ azureResouceGroup (model (out_page (populateServerGroupDropdown envNoServers loadedPage)))
    = Some "RG1".
Proof. split; reflexivity. Qed.

(** *** Notebook content *)

Section NotebookFacts.
Import Notebook.
Variable JSON_parse : string -> exn + json.

Lemma typeof_object_defined (v : option json) :
  typeof v = "object" -> exists x, v = Some x.
Proof. destruct v as [x|]; [eauto | discriminate]. Qed.

Lemma typeof_number_defined (v : option json) :
  typeof v = "number" -> exists x, v = Some x.
Proof. destruct v as [x|]; [eauto | discriminate]. Qed.

(** The try block returns true exactly on a parsed object whose four
    members have the types asked for. *)
Lemma tryBlock_true_iff (documentContent : string) :
  tryBlock JSON_parse documentContent = inr true <->
  exists members,
    JSON_parse documentContent = inr (JObject members)
    /\ typeof (lookupMember "metadata" members) = "object"
    /\ typeof (lookupMember "nbformat" members) = "number"
    /\ typeof (lookupMember "nbformat_minor" members) = "number"
    /\ typeof (lookupMember "cells" members) = "object".
Proof.
  unfold tryBlock. split.
  - destruct (JSON_parse documentContent) as [ex|doc]; [discriminate|].
    destruct doc as [ | b | n | s | items | members]; cbn [getMember typeof];
      try discriminate.
    destruct (String.eqb_spec (typeof (lookupMember "metadata" members)) "object")
      as [H1|]; [|discriminate].
    destruct (String.eqb_spec (typeof (lookupMember "nbformat" members)) "number")
      as [H2|]; [|discriminate].
    destruct (String.eqb_spec (typeof (lookupMember "nbformat_minor" members)) "number")
      as [H3|]; [|discriminate].
    destruct (String.eqb_spec (typeof (lookupMember "cells" members)) "object")
      as [H4|]; [|discriminate].
    intros _. exists members. auto.
  - intros (members & -> & H1 & H2 & H3 & H4). cbn [getMember].
    rewrite H1, H2, H3, H4. reflexivity.
Qed.

End NotebookFacts.

(** C10: [isNotebookContent] is a total function to the booleans (the
    [catch] takes every exception of the [try] block), and it answers true
    exactly when the text parses to a document whose field metadata has
    type object, nbformat and nbformat_minor have type number, and cells
    has type object; when the text does not parse, or a field is missing or
    of another type, it answers false. *)
Theorem isNotebookContent_iff
    (JSON_parse : string -> exn + Notebook.json) (documentContent : string) :
  (Notebook.isNotebookContent JSON_parse documentContent = true
   <-> Notebook.parsesToNotebook JSON_parse documentContent)
  /\ (Notebook.isNotebookContent JSON_parse documentContent = false
      <-> ~ Notebook.parsesToNotebook JSON_parse documentContent).
Proof.
  assert (Htrue : Notebook.isNotebookContent JSON_parse documentContent = true
                  <-> Notebook.parsesToNotebook JSON_parse documentContent).
  { unfold Notebook.isNotebookContent, Notebook.parsesToNotebook, Notebook.fieldHasType.
    split.
    - intros H.
      assert (Htry : Notebook.tryBlock JSON_parse documentContent = inr true).
      { destruct (Notebook.tryBlock JSON_parse documentContent) as [ex|[|]];
          [discriminate | reflexivity | discriminate]. }
      apply tryBlock_true_iff in Htry as (members & Hp & H1 & H2 & H3 & H4).
      exists (Notebook.JObject members). split; [exact Hp|].
      destruct (typeof_object_defined _ H1) as [v1 E1].
      destruct (typeof_number_defined _ H2) as [v2 E2].
      destruct (typeof_number_defined _ H3) as [v3 E3].
      destruct (typeof_object_defined _ H4) as [v4 E4].
      repeat split.
      + exists members, v1. rewrite <- E1. auto.
      + exists members, v2. rewrite <- E2. auto.
      + exists members, v3. rewrite <- E3. auto.
      + exists members, v4. rewrite <- E4. auto.
    - intros (doc & Hp & (m1 & v1 & -> & L1 & T1) & (m2 & v2 & E2 & L2 & T2)
                & (m3 & v3 & E3 & L3 & T3) & (m4 & v4 & E4 & L4 & T4)).
      inversion E2; subst m2. inversion E3; subst m3. inversion E4; subst m4.
      assert (Htry : Notebook.tryBlock JSON_parse documentContent = inr true).
      { apply tryBlock_true_iff. exists m1.
        rewrite L1, L2, L3, L4. auto. }
      now rewrite Htry. }
  split; [exact Htrue|].
  destruct (Notebook.isNotebookContent JSON_parse documentContent) eqn:Hb.
  - split; [discriminate|]. intros Hn. exfalso. apply Hn, Htrue. reflexivity.
  - split; [|reflexivity]. intros _ Hn. apply Htrue in Hn. discriminate.
Qed.

(** A null metadata and an array of cells pass: both have type object. *)
Example isNotebookContent_sample :
  Notebook.isNotebookContent sampleParse "{nb}" = true.
Proof. reflexivity. Qed.

(** Reading a member of null throws inside the try block. *)
Example isNotebookContent_null :
  Notebook.tryBlock sampleParse "null" = inl TypeError
  /\ Notebook.isNotebookContent sampleParse "null" = false.
Proof. split; reflexivity. Qed.

Example isNotebookContent_not_json :
  Notebook.tryBlock sampleParse "# title" = inl SyntaxError
  /\ Notebook.isNotebookContent sampleParse "# title" = false.
Proof. split; reflexivity. Qed.

Example isNotebookContent_mistyped :
  Notebook.tryBlock sampleParse "{nb-text}" = inr false
  /\ Notebook.isNotebookContent sampleParse "{nb-text}" = false.
Proof. split; reflexivity. Qed.

(** ** Further properties of the Azure settings page *)

(** *** Every way the server reload can end *)

Lemma populateServerGroupDropdown_outcomes (e : Env) (p : Page) :
  populateServerGroupDropdown e p
    = {| out_trace := []; out_page := serversCleared p; out_result := inr tt |}
  \/ populateServerGroupDropdown e p
    = {| out_trace := []; out_page := serversInterrupted p; out_result := inl TypeError |}
  \/ (exists cv tok,
        value (_azureSubscriptionsDropdown p) = Some cv
        /\ displayName cv <> EmptyString
        /\ securityToken (model p) = Some tok
        /\ ((exists ex,
               populateServerGroupDropdown e p
               = {| out_trace := [serverRequest p tok]; out_page := serversInterrupted p;
                    out_result := inl ex |})
            \/ populateServerGroupDropdown e p
               = {| out_trace := [serverRequest p tok]; out_page := serversNotFound p;
                    out_result := inr tt |}
            \/ (exists v vs,
                  populateServerGroupDropdown e p
                  = {| out_trace := [serverRequest p tok]; out_page := serversLoaded v vs p;
                       out_result := inr tt |}))).
Proof.
  destruct (value (_azureSubscriptionsDropdown p)) as [cv|] eqn:Hsub.
  2:{ left. now rewrite populateServerGroupDropdown_no_subscription. }
  destruct (String.eqb_spec (displayName cv) EmptyString) as [Hempty|Hname].
  { left. unfold populateServerGroupDropdown. page_run. rewrite Hsub.
    apply String.eqb_eq in Hempty. rewrite Hempty. page_run. reflexivity. }
  destruct (securityToken (model p)) as [tok|] eqn:Htok.
  2:{ right; left. unfold populateServerGroupDropdown. page_run. rewrite Hsub.
      apply String.eqb_neq in Hname. rewrite Hname. cbv zeta. rewrite run_bind.
      rewrite getRequest_no_token by exact Htok. reflexivity. }
  right; right. exists cv, tok.
  split; [reflexivity|]. split; [exact Hname|]. split; [reflexivity|].
  destruct (transport e (serversUrl (azureSubscription (model p))) (requestHeaders tok))
    as [reason|r] eqn:Hnet.
  { left. exists (Rejected reason).
    unfold populateServerGroupDropdown. page_run. rewrite Hsub.
    apply String.eqb_neq in Hname. rewrite Hname. cbv zeta. rewrite run_bind.
    rewrite (getRequest_outcome e (with_serverGroupLoader true p) _ tok Htok).
    page_cbn. unfold requestHeaders in Hnet. rewrite Hnet. reflexivity. }
  destruct (data_value r) as [vs|] eqn:Hval.
  - rewrite (populateServerGroupDropdown_response e p cv tok r vs Hsub Hname Htok Hnet Hval).
    destruct vs as [|v vs'].
    + right; left. reflexivity.
    + right; right. exists v, vs'. reflexivity.
  - left. exists TypeError.
    unfold populateServerGroupDropdown. page_run. rewrite Hsub.
    apply String.eqb_neq in Hname. rewrite Hname. cbv zeta. rewrite run_bind.
    rewrite (getRequest_outcome e (with_serverGroupLoader true p) _ tok Htok).
    page_cbn. unfold requestHeaders in Hnet. rewrite Hnet.
    rewrite run_bind_defined, Hval. reflexivity.
Qed.

Ltac server_outcomes e p :=
  destruct (populateServerGroupDropdown_outcomes e p)
    as [-> | [-> | (?cv & ?tok & ?Hshown & ?Hname & ?Htok
                    & [(?ex & ->) | [-> | (?v & ?vs & ->)]])]].

(** X1: the server reload switches its loader off exactly when it ends
    normally; when it is cut short (no token in the model, the request
    fails, or the response has no [value]) the loader is left spinning. *)
Theorem serverReload_loader_off_iff_normal_end (e : Env) (p : Page) :
  _serverGroupLoader (out_page (populateServerGroupDropdown e p)) = false
  <-> out_result (populateServerGroupDropdown e p) = inr tt.
Proof.
  server_outcomes e p; cbn; split; intros H; try reflexivity; discriminate H.
Qed.

(** X2: the server reload sends at most one request, and none unless the
    subscription dropdown shows an entry with a display name and the model
    holds a token; the request is the GET of the server list of the model's
    subscription, carrying that token, and it is sent while the loader
    spins and before anything else on the page has changed. *)
Theorem serverReload_requests (e : Env) (p : Page) :
  (length (out_trace (populateServerGroupDropdown e p)) <= 1)%nat
  /\ forall ev, In ev (out_trace (populateServerGroupDropdown e p)) ->
       exists cv tok,
         value (_azureSubscriptionsDropdown p) = Some cv
         /\ displayName cv <> EmptyString
         /\ securityToken (model p) = Some tok
         /\ ev_call ev = CallAxiosGet (serversUrl (azureSubscription (model p)))
                           [ ("Content-Type", "application/json");
                             ("Authorization", "Bearer " ++ token tok) ]
         /\ ev_page ev = with_serverGroupLoader true p.
Proof.
  server_outcomes e p; cbn [out_trace length]; (split; [lia|]);
    intros ev Hin; cbn in Hin; try contradiction;
    destruct Hin as [<- | []]; exists cv, tok; repeat split; assumption.
Qed.

Lemma serverReload_requests_witness :
  exists cv tok,
    value (_azureSubscriptionsDropdown loadedPage) = Some cv
    /\ displayName cv <> EmptyString
    /\ securityToken (model loadedPage) = Some tok
    /\ ev_call (serverRequest loadedPage {| token := "tok" |})
       = CallAxiosGet (serversUrl (azureSubscription (model loadedPage)))
           [ ("Content-Type", "application/json");
             ("Authorization", "Bearer " ++ token tok) ]
    /\ ev_page (serverRequest loadedPage {| token := "tok" |})
       = with_serverGroupLoader true loadedPage.
Proof.
  apply (proj2 (serverReload_requests envLoaded loadedPage)).
  vm_compute. left. reflexivity.
Defined.

(** X3: whatever the outside answers, the server reload leaves everything
    upstream as it was: the account and subscription dropdowns and their
    loaders, the two maps, the model's account, subscription and token, the
    message and [liveValidation]. *)
Theorem serverReload_leaves_upstream (e : Env) (p : Page) :
  upstreamUntouched p (out_page (populateServerGroupDropdown e p)).
Proof.
  server_outcomes e p; repeat split.
Qed.

(** *** What the page keeps true *)

Lemma preserves_refl (I : Page -> Prop) (p : Page) : preserves I p p.
Proof. intros H. exact H. Qed.

Lemma preserves_trans (I : Page -> Prop) (p q r : Page) :
  preserves I p q -> preserves I q r -> preserves I p r.
Proof. unfold preserves. auto. Qed.

Ltac page_cbn_in H :=
  cbn [out_trace out_page out_result prepend
       _azureAccountsDropdown _azureAccountsLoader _azureSubscriptionsDropdown
       _azureSubscriptionLoader _serverGroupDropdown _serverGroupLoader
       _accountsMap _subscriptionsMap model message liveValidation
       with_azureAccountsDropdown with_azureAccountsLoader
       with_azureSubscriptionsDropdown with_azureSubscriptionLoader
       with_serverGroupDropdown with_serverGroupLoader with_accountsMap
       with_subscriptionsMap with_model with_message with_liveValidation
       azureAccount azureSubscription azureSubscriptionDisplayName securityToken
       azureServerName azureResouceGroup
       set_azureAccount set_azureSubscription set_azureSubscriptionDisplayName
       set_securityToken set_azureServerName set_azureResouceGroup
       values value updateProperties_values addDropdownValues selectValue
       ev_call ev_page app] in H.

(** A step of a method that does not touch what the property reads. *)
Ltac preserves_step :=
  walk_with ltac:(apply preserves_refl) ltac:(apply preserves_trans)
            ltac:(let H := fresh in intros ? H; exact H).

Lemma populateServerGroupDropdown_upstream :
  always upstreamUntouched populateServerGroupDropdown.
Proof. intros e p. server_outcomes e p; repeat split. Qed.

Lemma upstream_preserves_subscription (p q : Page) :
  upstreamUntouched p q -> preserves subscriptionFollowsDropdown p q.
Proof.
  intros (_ & _ & Hdd & _ & _ & _ & _ & Hsub & Hname & _) Hinv cv Hcv.
  rewrite Hsub, Hname. apply Hinv. now rewrite <- Hdd.
Qed.

Lemma populateServerGroupDropdown_preserves_subscription :
  always (preserves subscriptionFollowsDropdown) populateServerGroupDropdown.
Proof.
  apply (always_weaken upstreamUntouched); [exact upstream_preserves_subscription|].
  apply populateServerGroupDropdown_upstream.
Qed.

Lemma populateAzureSubscriptionsDropdown_preserves_subscription :
  always (preserves subscriptionFollowsDropdown) populateAzureSubscriptionsDropdown.
Proof.
  intros e p Hinv. unfold populateAzureSubscriptionsDropdown. page_run.
  rewrite run_bind_await. page_run.
  destruct (value (_azureAccountsDropdown p)) as [acc|] eqn:Hacc.
  - rewrite run_bind_await. page_cbn.
    destruct (getSubscriptions e (_accountsMap p !! name acc)) as [ex|subs]; page_cbn.
    { exact Hinv. }
    destruct subs as [[|s l]|]; page_run.
    + rewrite run_bind_ret_tt.
      apply (populateServerGroupDropdown_preserves_subscription e).
      intros cv Hcv. discriminate Hcv.
    + rewrite run_bind_defined.
      destruct (head (map subscriptionCategoryValue
                        (Array_sort (compareSubscriptions e) (s :: l)))) as [v1|] eqn:Hhead.
      * page_run.
        match goal with
        | |- context [bind ?m ?k e ?q] =>
            assert (Hrest : always (preserves subscriptionFollowsDropdown) (bind m k))
              by (repeat first [ apply populateServerGroupDropdown_preserves_subscription
                               | preserves_step ]);
            apply (Hrest e q)
        end.
        intros cv Hcv. page_cbn_in Hcv. rewrite Hhead in Hcv.
        inversion Hcv; subst cv. split; reflexivity.
      * page_cbn. intros cv Hcv. page_cbn_in Hcv. rewrite Hhead in Hcv. discriminate Hcv.
    + rewrite run_bind_ret_tt.
      apply (populateServerGroupDropdown_preserves_subscription e).
      intros cv Hcv. discriminate Hcv.
  - page_run. rewrite run_bind_ret_tt.
    apply (populateServerGroupDropdown_preserves_subscription e). exact Hinv.
Qed.

Lemma populateAzureAccountsDropdown_preserves_subscription :
  always (preserves subscriptionFollowsDropdown) populateAzureAccountsDropdown.
Proof.
  unfold populateAzureAccountsDropdown.
  repeat first [ apply populateAzureSubscriptionsDropdown_preserves_subscription
               | preserves_step ].
Qed.

Lemma handle_preserves_subscription (h : Handler) :
  always (preserves subscriptionFollowsDropdown) (handle h).
Proof.
  destruct h as [ | | | cv | cv | cv | pcInfo]; unfold handle.
  - apply always_spawn, populateAzureAccountsDropdown_preserves_subscription.
  - unfold signInButton_onDidClick.
    repeat first [ apply populateAzureAccountsDropdown_preserves_subscription
                 | preserves_step ].
  - apply populateAzureAccountsDropdown_preserves_subscription.
  - unfold onAzureAccountValueChanged.
    repeat first [ apply populateAzureSubscriptionsDropdown_preserves_subscription
                 | preserves_step ].
  - intros e p _. unfold onAzureSubscriptionValueChanged. page_run.
    rewrite run_bind_defined. page_run. rewrite run_bind_await. page_cbn.
    match goal with
    | |- context [match ?x with inl _ => _ | inr _ => _ end] => destruct x as [ex|tok]
    end; page_run.
    + intros cv' Hcv'. page_cbn_in Hcv'. inversion Hcv'; subst cv'. split; reflexivity.
    + unfold spawn. page_cbn.
      apply (populateServerGroupDropdown_preserves_subscription e).
      intros cv' Hcv'. page_cbn_in Hcv'. inversion Hcv'; subst cv'. split; reflexivity.
  - unfold onServerGroupValueChanged. repeat preserves_step.
  - unfold onEnter_validator, formValidation. repeat preserves_step.
Qed.

Lemma reachable_subscriptionFollowsDropdown (p : Page) :
  reachable p -> subscriptionFollowsDropdown p.
Proof.
  induction 1 as [|h e p Hreach IH].
  - intros cv Hcv. discriminate Hcv.
  - exact (handle_preserves_subscription h e p IH).
Qed.

(** X4: on every page the host can bring about, the model names the
    subscription the subscription dropdown shows: its id in
    [azureSubscription] and its display name in
    [azureSubscriptionDisplayName].  So whatever a server reload started on
    such a page requests is the server list of the subscription shown. *)
Theorem model_names_shown_subscription (p : Page) (cv : CategoryValue) :
  reachable p ->
  value (_azureSubscriptionsDropdown p) = Some cv ->
  azureSubscription (model p) = Some (name cv)
  /\ azureSubscriptionDisplayName (model p) = Some (displayName cv)
  /\ forall e ev, In ev (out_trace (populateServerGroupDropdown e p)) ->
       exists tok, ev_call ev = CallAxiosGet (serversUrl (Some (name cv))) (requestHeaders tok).
Proof.
  intros Hreach Hcv.
  destruct (reachable_subscriptionFollowsDropdown p Hreach cv Hcv) as [Hid Hname].
  split; [exact Hid|]. split; [exact Hname|].
  intros e ev.
  server_outcomes e p; cbn [out_trace]; intros Hin; cbn in Hin; try contradiction;
    destruct Hin as [<- | []]; exists tok; cbn [serverRequest ev_call]; now rewrite Hid.
Qed.

Lemma model_names_shown_subscription_witness :
  azureSubscription (model loadedPage) = Some "S1"
  /\ azureSubscriptionDisplayName (model loadedPage) = Some "Dev - S1"
  /\ forall e ev, In ev (out_trace (populateServerGroupDropdown e loadedPage)) ->
       exists tok, ev_call ev = CallAxiosGet (serversUrl (Some "S1")) (requestHeaders tok).
Proof.
  apply (model_names_shown_subscription loadedPage (subscriptionCategoryValue subDev)).
  - apply reachable_after, reachable_initial.
  - reflexivity.
Defined.

(** The same for the server's name. *)
Lemma populateServerGroupDropdown_preserves_serverName :
  always (preserves serverNameFollowsDropdown) populateServerGroupDropdown.
Proof.
  intros e p Hinv c.
  server_outcomes e p; cbn; intros Hc Hreal;
    try discriminate Hc; try (now apply Hinv).
  - inversion Hc; subst c. now contradiction Hreal.
  - inversion Hc; subst c. reflexivity.
Qed.

Lemma populateAzureSubscriptionsDropdown_preserves_serverName :
  always (preserves serverNameFollowsDropdown) populateAzureSubscriptionsDropdown.
Proof.
  unfold populateAzureSubscriptionsDropdown.
  repeat first [ apply populateServerGroupDropdown_preserves_serverName | preserves_step ].
Qed.

Lemma populateAzureAccountsDropdown_preserves_serverName :
  always (preserves serverNameFollowsDropdown) populateAzureAccountsDropdown.
Proof.
  unfold populateAzureAccountsDropdown.
  repeat first [ apply populateAzureSubscriptionsDropdown_preserves_serverName
               | preserves_step ].
Qed.

Lemma handle_preserves_serverName (h : Handler) :
  always (preserves serverNameFollowsDropdown) (handle h).
Proof.
  destruct h as [ | | | cv | cv | cv | pcInfo]; unfold handle.
  - apply always_spawn, populateAzureAccountsDropdown_preserves_serverName.
  - unfold signInButton_onDidClick.
    repeat first [ apply populateAzureAccountsDropdown_preserves_serverName
                 | preserves_step ].
  - apply populateAzureAccountsDropdown_preserves_serverName.
  - unfold onAzureAccountValueChanged.
    repeat first [ apply populateAzureSubscriptionsDropdown_preserves_serverName
                 | preserves_step ].
  - unfold onAzureSubscriptionValueChanged.
    repeat first [ apply populateServerGroupDropdown_preserves_serverName
                 | preserves_step ].
  - intros e p _. rewrite run_bind_modify.
    unfold onServerGroupValueChanged. page_run. rewrite run_bind_defined. page_cbn.
    rewrite String.eqb_refl. page_run. unfold modify.
    intros cv' Hcv' _. page_cbn_in Hcv'. inversion Hcv'; subst cv'. reflexivity.
  - unfold onEnter_validator, formValidation. repeat preserves_step.
Qed.

Lemma reachable_serverNameFollowsDropdown (p : Page) :
  reachable p -> serverNameFollowsDropdown p.
Proof.
  induction 1 as [|h e p Hreach IH].
  - intros cv Hcv. discriminate Hcv.
  - exact (handle_preserves_serverName h e p IH).
Qed.

(** X5: on every page the host can bring about, when the server dropdown
    shows a server other than the No servers found entry, the model's
    [azureServerName] is that server's display name. *)
Theorem model_names_selected_server (p : Page) (cv : CategoryValue) :
  reachable p ->
  value (_serverGroupDropdown p) = Some cv ->
  displayName cv <> "No servers found" ->
  azureServerName (model p) = Some (displayName cv).
Proof.
  intros Hreach. now apply reachable_serverNameFollowsDropdown.
Qed.

Lemma model_names_selected_server_witness :
  azureServerName (model loadedPage) = Some "srv1".
Proof.
  apply (model_names_selected_server loadedPage (serverCategoryValue srv1)).
  - apply reachable_after, reachable_initial.
  - reflexivity.
  - discriminate.
Defined.

(** *** The two maps *)

Section FoldInsert.
Context {V : Type} (key : V -> string).

Lemma find_snoc (f : V -> bool) (l : list V) (x : V) :
  find f (l ++ [x]) =
    match find f l with
    | Some y => Some y
    | None => if f x then Some x else None
    end.
Proof.
  induction l as [|y l IH]; cbn; [reflexivity|].
  destruct (f y); [reflexivity | exact IH].
Qed.

(** Setting the elements of a list one after the other under their keys:
    a key holds the last element of the list that has it, or what it held
    before. *)
Lemma foldl_insert_lookup (l : list V) (m : gmap string V) (k : string) :
  foldl (fun acc v => <[ key v := v ]> acc) m l !! k =
    match findLast (fun v => String.eqb (key v) k) l with
    | Some v => Some v
    | None => m !! k
    end.
Proof.
  unfold findLast. revert m.
  induction l as [|x l IH]; intros m; cbn [foldl rev]; [reflexivity|].
  rewrite IH, find_snoc.
  destruct (find (fun v => String.eqb (key v) k) (rev l)); [reflexivity|].
  destruct (String.eqb_spec (key x) k) as [<- | Hne].
  - apply lookup_insert_eq.
  - now apply lookup_insert_ne.
Qed.

Lemma findLast_key (l : list V) (k : string) (v : V) :
  findLast (fun v => String.eqb (key v) k) l = Some v -> In v l /\ key v = k.
Proof.
  unfold findLast. intros H. apply find_some in H as [Hin Hk].
  split; [now apply in_rev | now apply String.eqb_eq].
Qed.

Lemma findLast_In (l : list V) (v : V) :
  In v l -> exists w, findLast (fun w => String.eqb (key w) (key v)) l = Some w.
Proof.
  unfold findLast. intros Hin.
  destruct (find (fun w => String.eqb (key w) (key v)) (rev l)) as [w|] eqn:Hfind; [eauto|].
  pose proof (find_none _ _ Hfind v (proj1 (in_rev l v) Hin)) as Hf.
  cbn beta in Hf. rewrite String.eqb_refl in Hf. discriminate Hf.
Qed.

Lemma findLast_NoDup (l : list V) (v : V) :
  List.NoDup (map key l) -> In v l ->
  findLast (fun w => String.eqb (key w) (key v)) l = Some v.
Proof.
  intros Hnodup Hin.
  destruct (findLast_In l v Hin) as [w Hw]. rewrite Hw. f_equal.
  apply findLast_key in Hw as [Hwin Hkey].
  clear -Hnodup Hin Hwin Hkey.
  induction l as [|x l IH]; [contradiction|].
  cbn [map] in Hnodup. apply List.NoDup_cons_iff in Hnodup as [Hx Hnodup].
  destruct Hin as [-> | Hin], Hwin as [-> | Hwin]; auto.
  - exfalso. apply Hx. rewrite <- Hkey. now apply in_map.
  - exfalso. apply Hx. rewrite Hkey. now apply in_map.
Qed.

End FoldInsert.

Lemma setAccounts_lookup (l : list Account) (m : gmap string Account) (k : string) :
  setAccounts l m !! k =
    match findLast (sameDisplayName k) l with
    | Some a => Some a
    | None => m !! k
    end.
Proof. apply (foldl_insert_lookup account_displayName). Qed.

Lemma setSubscriptions_lookup (l : list Subscription) (m : gmap string Subscription)
    (k : string) :
  setSubscriptions l m !! k =
    match findLast (sameId k) l with
    | Some s => Some s
    | None => m !! k
    end.
Proof. apply (foldl_insert_lookup sub_id). Qed.

Lemma setAccounts_grows (l : list Account) (m : gmap string Account) (k : string) :
  is_Some (m !! k) -> is_Some (setAccounts l m !! k).
Proof.
  intros H. rewrite setAccounts_lookup.
  destruct (findLast (sameDisplayName k) l); [eauto | exact H].
Qed.

Lemma setSubscriptions_grows (l : list Subscription) (m : gmap string Subscription)
    (k : string) :
  is_Some (m !! k) -> is_Some (setSubscriptions l m !! k).
Proof.
  intros H. rewrite setSubscriptions_lookup.
  destruct (findLast (sameId k) l); [eauto | exact H].
Qed.

Lemma mapsGrow_refl (p : Page) : mapsGrow p p.
Proof. split; auto. Qed.

Lemma mapsGrow_trans (p q r : Page) : mapsGrow p q -> mapsGrow q r -> mapsGrow p r.
Proof. intros [H1 H2] [H3 H4]. split; auto. Qed.

Lemma populateServerGroupDropdown_mapsGrow : always mapsGrow populateServerGroupDropdown.
Proof.
  apply (always_weaken upstreamUntouched); [|apply populateServerGroupDropdown_upstream].
  intros p q (_ & _ & _ & _ & Hacc & Hsub & _). unfold mapsGrow.
  rewrite Hacc, Hsub. split; auto.
Qed.

Ltac grows_step :=
  lazymatch goal with
  | |- always _ populateServerGroupDropdown => apply populateServerGroupDropdown_mapsGrow
  | _ =>
      walk_with ltac:(apply mapsGrow_refl) ltac:(apply mapsGrow_trans)
                ltac:(let H := fresh in
                      intros ?;
                      first [ split; intros ? H; exact H
                            | split; [ intros ? H; apply setAccounts_grows, H
                                     | intros ? H; exact H ]
                            | split; [ intros ? H; exact H
                                     | intros ? H; apply setSubscriptions_grows, H ] ])
  end.

Lemma populateAzureSubscriptionsDropdown_mapsGrow :
  always mapsGrow populateAzureSubscriptionsDropdown.
Proof. unfold populateAzureSubscriptionsDropdown. repeat grows_step. Qed.

Lemma populateAzureAccountsDropdown_mapsGrow :
  always mapsGrow populateAzureAccountsDropdown.
Proof.
  unfold populateAzureAccountsDropdown.
  repeat first [ apply populateAzureSubscriptionsDropdown_mapsGrow | grows_step ].
Qed.

(** X6: the two maps are never cleared and never lose a key: whatever the
    host makes the page do and whatever the outside answers, an account
    display name or a subscription id that was in its map before is still
    in it afterwards (entries of earlier loads stay next to the new
    ones). *)
Theorem maps_never_lose_a_key (h : Handler) (e : Env) (p : Page) (k : string) :
  (is_Some (_accountsMap p !! k) -> is_Some (_accountsMap (after h e p) !! k))
  /\ (is_Some (_subscriptionsMap p !! k) -> is_Some (_subscriptionsMap (after h e p) !! k)).
Proof.
  assert (Hh : always mapsGrow (handle h)).
  { destruct h as [ | | | cv | cv | cv | pcInfo]; unfold handle.
    - apply always_spawn, populateAzureAccountsDropdown_mapsGrow.
    - unfold signInButton_onDidClick.
      repeat first [ apply populateAzureAccountsDropdown_mapsGrow | grows_step ].
    - apply populateAzureAccountsDropdown_mapsGrow.
    - unfold onAzureAccountValueChanged.
      repeat first [ apply populateAzureSubscriptionsDropdown_mapsGrow | grows_step ].
    - unfold onAzureSubscriptionValueChanged. repeat grows_step.
    - unfold onServerGroupValueChanged. repeat grows_step.
    - unfold onEnter_validator, formValidation. repeat grows_step. }
  destruct (Hh e p) as [Hacc Hsub]. split; [apply Hacc | apply Hsub].
Qed.

Lemma maps_never_lose_a_key_witness :
  is_Some (_accountsMap (after RefreshClicked envNoAccounts loadedPage) !! "alice")
  /\ is_Some (_subscriptionsMap (after RefreshClicked envNoAccounts loadedPage) !! "S1").
Proof.
  split.
  - apply (proj1 (maps_never_lose_a_key RefreshClicked envNoAccounts loadedPage "alice")).
    vm_compute. eauto.
  - apply (proj2 (maps_never_lose_a_key RefreshClicked envNoAccounts loadedPage "S1")).
    vm_compute. eauto.
Defined.

(** *** The entries the dropdowns offer *)

Lemma populateServerGroupDropdown_preserves_entries :
  always (preserves entriesResolve) populateServerGroupDropdown.
Proof.
  apply (always_weaken upstreamUntouched); [|apply populateServerGroupDropdown_upstream].
  intros p q (Hadd & _ & Hsdd & _ & Hacc & Hsub & _) Hinv.
  unfold entriesResolve. rewrite Hadd, Hsdd, Hacc, Hsub. exact Hinv.
Qed.

Lemma accounts_resolve (l : list Account) (m : gmap string Account) (cv : CategoryValue) :
  In cv (map accountCategoryValue l) ->
  exists a, setAccounts l m !! displayName cv = Some a
            /\ account_displayName a = displayName cv.
Proof.
  intros Hin. apply in_map_iff in Hin as (a & <- & Hin).
  rewrite setAccounts_lookup. cbn [accountCategoryValue displayName].
  destruct (findLast_In account_displayName l a Hin) as [w Hw].
  unfold sameDisplayName. rewrite Hw. exists w. split; [reflexivity|].
  now apply (findLast_key account_displayName) in Hw.
Qed.

Lemma subscriptions_resolve (l : list Subscription) (m : gmap string Subscription)
    (cv : CategoryValue) :
  In cv (map subscriptionCategoryValue l) ->
  exists s, setSubscriptions l m !! name cv = Some s /\ sub_id s = name cv.
Proof.
  intros Hin. apply in_map_iff in Hin as (s & <- & Hin).
  rewrite setSubscriptions_lookup. cbn [subscriptionCategoryValue name].
  destruct (findLast_In sub_id l s Hin) as [w Hw].
  unfold sameId. rewrite Hw. exists w. split; [reflexivity|].
  now apply (findLast_key sub_id) in Hw.
Qed.

Lemma populateAzureSubscriptionsDropdown_preserves_entries :
  always (preserves entriesResolve) populateAzureSubscriptionsDropdown.
Proof.
  intros e p Hinv. unfold populateAzureSubscriptionsDropdown. page_run.
  rewrite run_bind_await. page_run.
  destruct (value (_azureAccountsDropdown p)) as [acc|] eqn:Hacc.
  - rewrite run_bind_await. page_cbn.
    destruct (getSubscriptions e (_accountsMap p !! name acc)) as [ex|subs]; page_cbn.
    { exact Hinv. }
    destruct subs as [[|s l]|]; page_run.
    + rewrite run_bind_ret_tt.
      apply (populateServerGroupDropdown_preserves_entries e).
      split; [exact (proj1 Hinv) | intros cv []].
    + match goal with
      | |- context [bind ?m ?k e ?q] =>
          assert (Hrest : always (preserves entriesResolve) (bind m k))
            by (repeat first [ apply populateServerGroupDropdown_preserves_entries
                             | preserves_step ]);
          apply (Hrest e q)
      end.
      split; [exact (proj1 Hinv)|].
      intros cv Hcv. page_cbn_in Hcv. page_cbn. now apply subscriptions_resolve.
    + rewrite run_bind_ret_tt.
      apply (populateServerGroupDropdown_preserves_entries e).
      split; [exact (proj1 Hinv) | intros cv []].
  - page_run. rewrite run_bind_ret_tt.
    apply (populateServerGroupDropdown_preserves_entries e). exact Hinv.
Qed.

Lemma populateAzureAccountsDropdown_preserves_entries :
  always (preserves entriesResolve) populateAzureAccountsDropdown.
Proof.
  intros e p Hinv. unfold populateAzureAccountsDropdown. page_run.
  rewrite run_bind_await.
  destruct (getAllAccounts e) as [ex|accounts]; page_cbn; [exact Hinv|].
  destruct accounts as [|a l]; cbn [length Nat.eqb]; page_run; [exact Hinv|].
  apply (populateAzureSubscriptionsDropdown_preserves_entries e).
  split; [|exact (proj2 Hinv)].
  intros cv Hcv. page_cbn_in Hcv. page_cbn. now apply accounts_resolve.
Qed.

Lemma handle_preserves_entries (h : Handler) :
  always (preserves entriesResolve) (handle h).
Proof.
  destruct h as [ | | | cv | cv | cv | pcInfo]; unfold handle.
  - apply always_spawn, populateAzureAccountsDropdown_preserves_entries.
  - unfold signInButton_onDidClick.
    repeat first [ apply populateAzureAccountsDropdown_preserves_entries | preserves_step ].
  - apply populateAzureAccountsDropdown_preserves_entries.
  - unfold onAzureAccountValueChanged.
    repeat first [ apply populateAzureSubscriptionsDropdown_preserves_entries
                 | preserves_step ].
  - unfold onAzureSubscriptionValueChanged.
    repeat first [ apply populateServerGroupDropdown_preserves_entries | preserves_step ].
  - unfold onServerGroupValueChanged. repeat preserves_step.
  - unfold onEnter_validator, formValidation. repeat preserves_step.
Qed.

Lemma reachable_entriesResolve (p : Page) : reachable p -> entriesResolve p.
Proof.
  induction 1 as [|h e p Hreach IH].
  - split; intros cv [].
  - exact (handle_preserves_entries h e p IH).
Qed.

Lemma populateAzureSubscriptionsDropdown_keeps_account :
  always (unchanged (fun p => azureAccount (model p))) populateAzureSubscriptionsDropdown.
Proof.
  unfold populateAzureSubscriptionsDropdown, populateServerGroupDropdown.
  repeat unchanged_step.
Qed.

(** X7: the non-null assertions on the map lookups hold.  On every page the
    host can bring about, an entry the account dropdown offers is found in
    [_accountsMap]: choosing it puts an account of that display name into
    the model, never undefined.  And an entry the subscription dropdown
    offers is found in [_subscriptionsMap]: choosing it asks, first of all,
    for the token of the tenant of a subscription with that id. *)
Theorem offered_entries_resolve (p : Page) (e : Env) (cv : CategoryValue) :
  reachable p ->
  (In cv (values (_azureAccountsDropdown p)) ->
   exists a, azureAccount (model (after (AccountChosen cv) e p)) = Some a
             /\ account_displayName a = displayName cv)
  /\ (In cv (values (_azureSubscriptionsDropdown p)) ->
      exists s rest,
        sub_id s = name cv
        /\ calls (out_trace (handle (SubscriptionChosen cv) e p))
           = CallGetAccountSecurityToken (azureAccount (model p)) (sub_tenant s) :: rest).
Proof.
  intros Hreach. destruct (reachable_entriesResolve p Hreach) as [Hacc Hsub]. split.
  - intros Hin. destruct (Hacc cv Hin) as (a & Hlook & Hname).
    exists a. split; [|exact Hname].
    unfold after, handle, onAzureAccountValueChanged. page_run. unfold spawn. page_cbn.
    rewrite (populateAzureSubscriptionsDropdown_keeps_account e). page_cbn. exact Hlook.
  - intros Hin. destruct (Hsub cv Hin) as (s & Hlook & Hid).
    exists s. unfold handle, onAzureSubscriptionValueChanged. page_run.
    rewrite run_bind_defined. page_run. rewrite run_bind_await. page_cbn.
    rewrite Hlook. cbn [mbind option_bind].
    destruct (getAccountSecurityToken e (azureAccount (model p)) (sub_tenant s));
      eexists; (split; [exact Hid | reflexivity]).
Qed.

Lemma offered_entries_resolve_witness :
  exists a, azureAccount (model (after (AccountChosen (accountCategoryValue accountB))
                                   (envTwoAccounts None) loadedPageTwo)) = Some a
            /\ account_displayName a = "bob".
Proof.
  apply (proj1 (offered_entries_resolve loadedPageTwo (envTwoAccounts None)
                  (accountCategoryValue accountB)
                  (reachable_after Initialize (envTwoAccounts None) initialPage
                     reachable_initial))).
  right. left. reflexivity.
Defined.

(** *** The account load *)

Lemma populateAzureSubscriptionsDropdown_keeps_accountsMap :
  always (unchanged _accountsMap) populateAzureSubscriptionsDropdown.
Proof.
  unfold populateAzureSubscriptionsDropdown, populateServerGroupDropdown.
  repeat unchanged_step.
Qed.

Lemma populateAzureSubscriptionsDropdown_keeps_accountsLoader :
  always (unchanged _azureAccountsLoader) populateAzureSubscriptionsDropdown.
Proof.
  unfold populateAzureSubscriptionsDropdown, populateServerGroupDropdown.
  repeat unchanged_step.
Qed.

(** X8: [_accountsMap] is keyed by display name, so after a load a display
    name resolves to the last account of the list that bears it.  The load
    puts the first account into the model but asks for the subscriptions of
    the account its display name resolves to; these are the same account
    when the display names of the list are all different. *)
Theorem account_load_resolves_by_display_name
    (e : Env) (p : Page) (a0 : Account) (l : list Account) :
  getAllAccounts e = inr (a0 :: l) ->
  (forall a, In a (a0 :: l) ->
     _accountsMap (out_page (populateAzureAccountsDropdown e p)) !! account_displayName a
     = findLast (sameDisplayName (account_displayName a)) (a0 :: l))
  /\ azureAccount (model (out_page (populateAzureAccountsDropdown e p))) = Some a0
  /\ (exists rest,
        calls (out_trace (populateAzureAccountsDropdown e p))
        = CallGetAllAccounts :: CallGetAzurecoreApi
          :: CallGetSubscriptions
               (findLast (sameDisplayName (account_displayName a0)) (a0 :: l))
          :: rest)
  /\ (List.NoDup (map account_displayName (a0 :: l)) ->
      forall a, In a (a0 :: l) ->
        findLast (sameDisplayName (account_displayName a)) (a0 :: l) = Some a).
Proof.
  intros Hacc.
  assert (Hrun : populateAzureAccountsDropdown e p =
    prepend [ {| ev_call := CallGetAllAccounts; ev_page := with_azureAccountsLoader true p |} ]
      (populateAzureSubscriptionsDropdown e
         (with_azureAccountsLoader false
            (with_model (set_azureAccount (Some a0))
               (with_azureAccountsDropdown
                  (addDropdownValues (map accountCategoryValue (a0 :: l)))
                  (with_accountsMap (setAccounts (a0 :: l))
                     (with_message EmptyString (with_azureAccountsLoader true p)))))))).
  { unfold populateAzureAccountsDropdown. page_run.
    rewrite run_bind_await, Hacc. cbn [length Nat.eqb]. page_run. reflexivity. }
  rewrite Hrun. page_cbn. split; [|split; [|split]].
  - intros a Hin.
    rewrite (populateAzureSubscriptionsDropdown_keeps_accountsMap e). page_cbn.
    rewrite setAccounts_lookup.
    destruct (findLast_In account_displayName (a0 :: l) a Hin) as [w Hw].
    unfold sameDisplayName. now rewrite Hw.
  - rewrite (populateAzureSubscriptionsDropdown_keeps_account e). reflexivity.
  - unfold populateAzureSubscriptionsDropdown. page_run.
    rewrite run_bind_await. page_run.
    cbn [map head accountCategoryValue name]. rewrite run_bind_await. page_cbn.
    rewrite setAccounts_lookup.
    destruct (findLast_In account_displayName (a0 :: l) a0 (or_introl eq_refl)) as [w Hw].
    unfold sameDisplayName. rewrite Hw.
    destruct (getSubscriptions e (Some w)); cbn [calls map out_trace prepend app ev_call];
      eexists; reflexivity.
  - intros Hnodup a Hin. now apply (findLast_NoDup account_displayName).
Qed.

Lemma account_load_resolves_by_display_name_witness :
  azureAccount (model (out_page (populateAzureAccountsDropdown envSameName initialPage)))
  = Some accountA
  /\ exists rest,
       calls (out_trace (populateAzureAccountsDropdown envSameName initialPage))
       = CallGetAllAccounts :: CallGetAzurecoreApi :: CallGetSubscriptions (Some accountA2)
         :: rest.
Proof.
  destruct (account_load_resolves_by_display_name envSameName initialPage accountA [accountA2])
    as (_ & Hmodel & Hcalls & _); [reflexivity|].
  split; [exact Hmodel | exact Hcalls].
Defined.

(** X9: the account loader stops spinning only when the credential store
    returned at least one account; with an empty list, or when the store
    fails, it is left spinning. *)
Theorem accounts_loader_off_iff_accounts (e : Env) (p : Page) :
  _azureAccountsLoader (out_page (populateAzureAccountsDropdown e p)) = false
  <-> exists a l, getAllAccounts e = inr (a :: l).
Proof.
  destruct (getAllAccounts e) as [ex|[|a l]] eqn:Hacc.
  - assert (Hrun : out_page (populateAzureAccountsDropdown e p)
                   = with_azureAccountsLoader true p).
    { unfold populateAzureAccountsDropdown. page_run. rewrite run_bind_await, Hacc.
      reflexivity. }
    rewrite Hrun. split; [discriminate | intros (a & l & H); discriminate H].
  - assert (Hrun : out_page (populateAzureAccountsDropdown e p)
                   = with_message "Sign in to an Azure account first"
                       (with_azureAccountsLoader true p)).
    { unfold populateAzureAccountsDropdown. page_run. rewrite run_bind_await, Hacc.
      cbn [length Nat.eqb]. page_run. reflexivity. }
    rewrite Hrun. split; [discriminate | intros (a & l & H); discriminate H].
  - assert (Hrun : exists q, _azureAccountsLoader q = false
                   /\ out_page (populateAzureAccountsDropdown e p)
                      = out_page (populateAzureSubscriptionsDropdown e q)).
    { eexists. split; [|unfold populateAzureAccountsDropdown; page_run;
                         rewrite run_bind_await, Hacc; cbn [length Nat.eqb]; page_run;
                         reflexivity].
      reflexivity. }
    destruct Hrun as (q & Hq & ->).
    rewrite (populateAzureSubscriptionsDropdown_keeps_accountsLoader e q).
    split; [eauto | exact (fun _ => Hq)].
Qed.

(** *** Choosing a subscription *)

(** X10: choosing a subscription records it in the model first and then
    asks for the token of its tenant.  If that request is rejected, the
    handler ends with the rejection: the model already names the new
    subscription, while the token, the server list and the model's server
    and resource group are the earlier ones, and no server list is
    requested.  If it is answered and the chosen entry has a display name,
    the server list of the chosen subscription is requested with the new
    token, and the handler ends normally whatever that request brings. *)
Theorem subscription_choice (e : Env) (p : Page) (cv : CategoryValue) :
  (forall ex,
      getAccountSecurityToken e (azureAccount (model p)) (tenantOf cv p) = inl ex ->
      handle (SubscriptionChosen cv) e p
      = {| out_trace := [ {| ev_call := CallGetAccountSecurityToken (azureAccount (model p))
                                          (tenantOf cv p);
                             ev_page := subscriptionRecorded cv p |} ];
           out_page := subscriptionRecorded cv p;
           out_result := inl ex |}
      /\ azureSubscription (model (subscriptionRecorded cv p)) = Some (name cv)
      /\ securityToken (model (subscriptionRecorded cv p)) = securityToken (model p)
      /\ _serverGroupDropdown (subscriptionRecorded cv p) = _serverGroupDropdown p
      /\ azureServerName (model (subscriptionRecorded cv p)) = azureServerName (model p)
      /\ azureResouceGroup (model (subscriptionRecorded cv p)) = azureResouceGroup (model p))
  /\ (forall tok,
        getAccountSecurityToken e (azureAccount (model p)) (tenantOf cv p) = inr tok ->
        displayName cv <> EmptyString ->
        out_result (handle (SubscriptionChosen cv) e p) = inr tt
        /\ calls (out_trace (handle (SubscriptionChosen cv) e p))
           = [ CallGetAccountSecurityToken (azureAccount (model p)) (tenantOf cv p);
               CallAxiosGet (serversUrl (Some (name cv)))
                 [ ("Content-Type", "application/json");
                   ("Authorization", "Bearer " ++ token tok) ] ]).
Proof.
  split.
  - intros ex Htok. split; [|repeat split].
    unfold handle, onAzureSubscriptionValueChanged. page_run.
    rewrite run_bind_defined. page_run. rewrite run_bind_await. page_cbn.
    unfold tenantOf in Htok. rewrite Htok. reflexivity.
  - intros tok Htok Hname.
    unfold handle, onAzureSubscriptionValueChanged. page_run.
    rewrite run_bind_defined. page_run. rewrite run_bind_await. page_cbn.
    unfold tenantOf in Htok. rewrite Htok. page_run. unfold spawn. page_cbn.
    split; [reflexivity|].
    unfold populateServerGroupDropdown. page_run.
    apply String.eqb_neq in Hname. rewrite Hname. cbv zeta. rewrite run_bind.
    match goal with
    | |- context [getRequest ?u e ?q] =>
        rewrite (getRequest_outcome e q u tok eq_refl)
    end.
    page_cbn.
    match goal with
    | |- context [match ?x with NetworkError _ => _ | Delivered _ => _ end] => destruct x
    end; [reflexivity|].
    rewrite run_bind_defined.
    match goal with
    | |- context [match data_value ?r with _ => _ end] => destruct (data_value r) as [[|v vs]|]
    end; cbn [length Nat.eqb]; page_run; reflexivity.
Qed.

Lemma subscription_choice_witness :
  out_result (handle (SubscriptionChosen (subscriptionCategoryValue subDev)) envLoaded loadedPage)
  = inr tt
  /\ calls (out_trace (handle (SubscriptionChosen (subscriptionCategoryValue subDev))
                         envLoaded loadedPage))
     = [ CallGetAccountSecurityToken (azureAccount (model loadedPage))
           (tenantOf (subscriptionCategoryValue subDev) loadedPage);
         CallAxiosGet (serversUrl (Some "S1"))
           [ ("Content-Type", "application/json"); ("Authorization", "Bearer tok") ] ].
Proof.
  apply (proj2 (subscription_choice envLoaded loadedPage (subscriptionCategoryValue subDev))
           {| token := "tok" |}).
  - reflexivity.
  - discriminate.
Defined.

(** *** The whole cascade *)

Lemma subscription_displayName_not_empty (s : Subscription) :
  displayName (subscriptionCategoryValue s) <> EmptyString.
Proof.
  cbn [subscriptionCategoryValue displayName].
  destruct (sub_name s); discriminate.
Qed.

(** X11: a load in which every outside call succeeds.  With accounts of
    different display names, a non-empty subscription list of different
    ids whose first element in sorted order is [s0], a token for the tenant
    of [s0] and a server list starting with [v], the load ends normally
    after exactly five outside calls, in this order: the accounts, the
    resource provider, the subscriptions of the first account, the token
    of the first account for the tenant of [s0], and the server list of
    [s0] with that token.  The model then holds the first account, [s0],
    the token, the first server and its resource group; the dropdowns hold
    the three lists; the message is cleared and no loader spins. *)
Theorem load_cascade
    (e : Env) (p : Page) (a0 : Account) (l : list Account)
    (subs : list Subscription) (s0 : Subscription) (sorted : list Subscription)
    (tok : Token) (r : AxiosResponse) (v : ServerEntry) (vs : list ServerEntry) :
  getAllAccounts e = inr (a0 :: l) ->
  List.NoDup (map account_displayName (a0 :: l)) ->
  getSubscriptions e (Some a0) = inr (Some subs) ->
  Array_sort (compareSubscriptions e) subs = s0 :: sorted ->
  List.NoDup (map sub_id subs) ->
  getAccountSecurityToken e (Some a0) (sub_tenant s0) = inr tok ->
  transport e (serversUrl (Some (sub_id s0)))
    [ ("Content-Type", "application/json");
      ("Authorization", "Bearer " ++ token tok) ] = Delivered r ->
  data_value r = Some (v :: vs) ->
  out_result (populateAzureAccountsDropdown e p) = inr tt
  /\ calls (out_trace (populateAzureAccountsDropdown e p))
     = [ CallGetAllAccounts; CallGetAzurecoreApi; CallGetSubscriptions (Some a0);
         CallGetAccountSecurityToken (Some a0) (sub_tenant s0);
         CallAxiosGet (serversUrl (Some (sub_id s0)))
           [ ("Content-Type", "application/json");
             ("Authorization", "Bearer " ++ token tok) ] ]
  /\ model (out_page (populateAzureAccountsDropdown e p))
     = {| azureAccount := Some a0;
          azureSubscription := Some (sub_id s0);
          azureSubscriptionDisplayName := Some (sub_name s0 ++ " - " ++ sub_id s0);
          securityToken := Some tok;
          azureServerName := Some (srv_name v);
          azureResouceGroup := Some (extractResourceGroup (srv_id v)) |}
  /\ values (_azureAccountsDropdown (out_page (populateAzureAccountsDropdown e p)))
     = map accountCategoryValue (a0 :: l)
  /\ values (_azureSubscriptionsDropdown (out_page (populateAzureAccountsDropdown e p)))
     = map subscriptionCategoryValue (s0 :: sorted)
  /\ values (_serverGroupDropdown (out_page (populateAzureAccountsDropdown e p)))
     = map serverCategoryValue (v :: vs)
  /\ message (out_page (populateAzureAccountsDropdown e p)) = EmptyString
  /\ _azureAccountsLoader (out_page (populateAzureAccountsDropdown e p)) = false
  /\ _azureSubscriptionLoader (out_page (populateAzureAccountsDropdown e p)) = false
  /\ _serverGroupLoader (out_page (populateAzureAccountsDropdown e p)) = false.
Proof.
  intros Hacc Hnames Hsubs Hsorted Hids Htok Hnet Hval.
  assert (Hlookup : setAccounts (a0 :: l) (_accountsMap p) !! account_displayName a0 = Some a0).
  { rewrite setAccounts_lookup. unfold sameDisplayName.
    rewrite (findLast_NoDup account_displayName (a0 :: l) a0 Hnames); [reflexivity|].
    now left. }
  assert (Htenant : setSubscriptions (s0 :: sorted) (_subscriptionsMap p) !! sub_id s0
                    = Some s0).
  { rewrite setSubscriptions_lookup. unfold sameId.
    rewrite (findLast_NoDup sub_id (s0 :: sorted) s0); [reflexivity| |now left].
    rewrite <- Hsorted.
    apply (Permutation_NoDup (l := map sub_id subs)); [|exact Hids].
    apply Permutation_map, Array_sort_Permutation. }
  destruct subs as [|s l0]; [discriminate Hsorted|].
  assert (Hrun : exists t q,
             populateAzureAccountsDropdown e p
             = {| out_trace := t; out_page := q; out_result := inr tt |}
             /\ calls t
                = [ CallGetAllAccounts; CallGetAzurecoreApi; CallGetSubscriptions (Some a0);
                    CallGetAccountSecurityToken (Some a0) (sub_tenant s0);
                    CallAxiosGet (serversUrl (Some (sub_id s0)))
                      [ ("Content-Type", "application/json");
                        ("Authorization", "Bearer " ++ token tok) ] ]
             /\ q = serversLoaded v vs
                      (with_azureSubscriptionLoader false
                         (with_model (set_securityToken (Some tok))
                            (subscriptionRecorded (subscriptionCategoryValue s0)
                               (with_azureSubscriptionsDropdown
                                  (addDropdownValues
                                     (map subscriptionCategoryValue (s0 :: sorted)))
                                  (with_subscriptionsMap (setSubscriptions (s0 :: sorted))
                                     (with_azureSubscriptionLoader true
                                        (with_azureAccountsLoader false
                                           (with_model (set_azureAccount (Some a0))
                                              (with_azureAccountsDropdown
                                                 (addDropdownValues
                                                    (map accountCategoryValue (a0 :: l)))
                                                 (with_accountsMap (setAccounts (a0 :: l))
                                                    (with_message EmptyString
                                                       (with_azureAccountsLoader true
                                                          p))))))))))))).
  { eexists _, _. split; [|split; [|reflexivity]].
    - unfold populateAzureAccountsDropdown. page_run.
      rewrite run_bind_await, Hacc. cbn [length Nat.eqb]. page_run.
      unfold populateAzureSubscriptionsDropdown. page_run.
      rewrite run_bind_await. page_run.
      cbn [map head accountCategoryValue name]. rewrite run_bind_await. page_cbn.
      rewrite Hlookup, Hsubs. page_run. rewrite Hsorted.
      rewrite run_bind_defined. cbn [map head]. page_run.
      rewrite run_bind_await. page_cbn.
      cbn [subscriptionCategoryValue name displayName]. rewrite Htenant.
      cbn [mbind option_bind]. rewrite Htok. page_run.
      match goal with
      | |- context [populateServerGroupDropdown e ?q] =>
          rewrite (populateServerGroupDropdown_response e q (subscriptionCategoryValue s0)
                     tok r (v :: vs) eq_refl (subscription_displayName_not_empty s0)
                     eq_refl Hnet Hval)
      end.
      page_cbn. reflexivity.
    - reflexivity. }
  destruct Hrun as (t & q & -> & Hcalls & ->).
  cbn [out_result out_trace out_page]. split; [reflexivity|]. split; [exact Hcalls|].
  repeat split.
Qed.

Lemma load_cascade_witness :
  out_result (populateAzureAccountsDropdown envSubsDevAlpha initialPage) = inr tt
  /\ calls (out_trace (populateAzureAccountsDropdown envSubsDevAlpha initialPage))
     = [ CallGetAllAccounts; CallGetAzurecoreApi; CallGetSubscriptions (Some accountA);
         CallGetAccountSecurityToken (Some accountA) (Some "T");
         CallAxiosGet (serversUrl (Some "S2"))
           [ ("Content-Type", "application/json"); ("Authorization", "Bearer tok") ] ].
Proof.
  destruct (load_cascade envSubsDevAlpha initialPage accountA [] [subDev; subAlpha]
              subAlpha [subDev] {| token := "tok" |}
              {| status := 200; data_value := Some [srv1] |} srv1 [])
    as (Hres & Hcalls & _); try reflexivity.
  - repeat constructor; cbn; tauto.
  - repeat constructor; cbn; intuition discriminate.
  - split; [exact Hres | exact Hcalls].
Defined.

(** *** The failures of the wizard's GET request *)

(** X12: [getRequest] fails in two ways only: with a TypeError, before
    anything is sent, when the model holds no token; and with the network's
    rejection when the request gets no response.  With a token exactly one
    GET is sent, to the given URL, with the token as bearer. *)
Theorem getRequest_failures (e : Env) (p : Page) (url : string) :
  (forall ex,
      out_result (getRequest url e p) = inl ex <->
      (securityToken (model p) = None /\ ex = TypeError)
      \/ (exists tok reason,
            securityToken (model p) = Some tok
            /\ transport e url [ ("Content-Type", "application/json");
                                 ("Authorization", "Bearer " ++ token tok) ]
               = NetworkError reason
            /\ ex = Rejected reason))
  /\ (securityToken (model p) = None -> out_trace (getRequest url e p) = [])
  /\ (forall tok,
        securityToken (model p) = Some tok ->
        calls (out_trace (getRequest url e p))
        = [ CallAxiosGet url [ ("Content-Type", "application/json");
                               ("Authorization", "Bearer " ++ token tok) ] ]).
Proof.
  destruct (securityToken (model p)) as [tok|] eqn:Htok.
  - rewrite (getRequest_outcome e p url tok Htok). cbn [out_result out_trace].
    split; [|split; [discriminate | intros tok' [= <-]; reflexivity]].
    intros ex. split.
    + destruct (transport e url _) as [reason|r] eqn:Hnet; [|discriminate].
      intros [= <-]. right. exists tok, reason. auto.
    + intros [[H _] | (tok' & reason & [= <-] & Hnet & ->)]; [discriminate H|].
      now rewrite Hnet.
  - rewrite (getRequest_no_token e p url Htok). cbn [out_result out_trace].
    split; [|split; [reflexivity | discriminate]].
    intros ex. split.
    + intros [= <-]. left. auto.
    + intros [[_ ->] | (tok & reason & H & _)]; [reflexivity | discriminate H].
Qed.

Lemma getRequest_failures_witness :
  calls (out_trace (getRequest "https://management.azure.com/x" env404 loadedPage))
  = [ CallAxiosGet "https://management.azure.com/x"
        [ ("Content-Type", "application/json"); ("Authorization", "Bearer tok") ] ].
Proof.
  apply (proj2 (proj2 (getRequest_failures env404 loadedPage "https://management.azure.com/x"))
           {| token := "tok" |}).
  reflexivity.
Defined.

(** *** A forward navigation attempt *)

(** X20: what a navigation attempt that is not backward does to the page.
    The validator switches [liveValidation] on and calls nothing outside.
    With no entry in the server dropdown it ends in a TypeError, before any
    message is shown.  With the No servers found entry it shows the
    two-line message and refuses.  With any other entry it lets the
    navigation pass and clears the message, whatever was shown before. *)
Theorem forward_navigation_effects (e : Env) (p : Page) (pcInfo : PageChangeInfo) :
  lastPage pcInfo <= newPage pcInfo ->
  (value (_serverGroupDropdown p) = None ->
   onEnter_validator pcInfo e p
   = {| out_trace := []; out_page := with_liveValidation true p;
        out_result := inl TypeError |})
  /\ (forall cv,
        value (_serverGroupDropdown p) = Some cv ->
        displayName cv = "No servers found" ->
        onEnter_validator pcInfo e p
        = {| out_trace := [];
             out_page := with_message noServersMessage (with_liveValidation true p);
             out_result := inr false |})
  /\ (forall cv,
        value (_serverGroupDropdown p) = Some cv ->
        displayName cv <> "No servers found" ->
        onEnter_validator pcInfo e p
        = {| out_trace := [];
             out_page := with_message EmptyString (with_liveValidation true p);
             out_result := inr true |}).
Proof.
  intros Hfwd. apply Z.ltb_ge in Hfwd.
  unfold onEnter_validator. rewrite Hfwd. rewrite run_bind_modify.
  split; [|split].
  - intros Hv. unfold bind.
    rewrite (formValidation_undefined e (with_liveValidation true p) Hv). reflexivity.
  - intros cv Hv Hname. unfold bind.
    rewrite (formValidation_selected e (with_liveValidation true p) cv Hv).
    apply String.eqb_eq in Hname. rewrite Hname. reflexivity.
  - intros cv Hv Hname. unfold bind.
    rewrite (formValidation_selected e (with_liveValidation true p) cv Hv).
    apply String.eqb_neq in Hname. rewrite Hname. reflexivity.
Qed.

Lemma forward_navigation_effects_witness :
  onEnter_validator forward envLoaded loadedPage
  = {| out_trace := [];
       out_page := with_message EmptyString (with_liveValidation true loadedPage);
       out_result := inr true |}.
Proof.
  assert (Hfwd : lastPage forward <= newPage forward) by (vm_compute; discriminate).
  apply (proj2 (proj2 (forward_navigation_effects envLoaded loadedPage forward Hfwd))
           (serverCategoryValue srv1)).
  - vm_compute. reflexivity.
  - vm_compute. discriminate.
Defined.

(** ** [getRandomToken] *)

Section RandomTokenFacts.
Import RandomToken.

Lemma byteToHex_digits (b : Byte.byte) :
  isHexDigit (hexDigit (Byte.to_N b / 16)) = true
  /\ isHexDigit (hexDigit (Byte.to_N b mod 16)) = true.
Proof. destruct b; split; reflexivity. Qed.

Lemma toHex_length (buffer : list Byte.byte) :
  String.length (toHex buffer) = (2 * length buffer)%nat.
Proof.
  induction buffer as [|b buffer IH]; cbn [toHex byteToHex String.length length];
    [reflexivity | lia].
Qed.

Lemma toHex_allHexDigits (buffer : list Byte.byte) : allHexDigits (toHex buffer) = true.
Proof.
  induction buffer as [|b buffer IH]; cbn [toHex byteToHex allHexDigits]; [reflexivity|].
  destruct (byteToHex_digits b) as [-> ->]. exact IH.
Qed.

Lemma byteToHex_injective (a b : Byte.byte) :
  hexDigit (Byte.to_N a / 16) = hexDigit (Byte.to_N b / 16) ->
  hexDigit (Byte.to_N a mod 16) = hexDigit (Byte.to_N b mod 16) ->
  a = b.
Proof.
  intros Hhigh Hlow.
  assert (Hdec : forall x : Byte.byte,
             Byte.of_N (match hexDigit (Byte.to_N x / 16), hexDigit (Byte.to_N x mod 16) with
                        | h, l => (N.of_nat (nat_of_ascii h) mod 39 - 9) mod 16 * 16
                                  + (N.of_nat (nat_of_ascii l) mod 39 - 9) mod 16
                        end)%N = Some x)
    by (intros x; destruct x; reflexivity).
  pose proof (Hdec a) as Ha. pose proof (Hdec b) as Hb.
  rewrite Hhigh, Hlow in Ha. rewrite Ha in Hb. now inversion Hb.
Qed.

Lemma toHex_injective (b1 b2 : list Byte.byte) : toHex b1 = toHex b2 -> b1 = b2.
Proof.
  revert b2. induction b1 as [|a b1 IH]; intros [|b b2]; cbn [toHex byteToHex];
    try discriminate; [reflexivity|].
  intros [= Hhigh Hlow Hrest].
  f_equal; [now apply byteToHex_injective | now apply IH].
Qed.

End RandomTokenFacts.

(** X13: when the system's source hands over [size] bytes, the promise is
    resolved with a token of exactly 2 * [size] characters, all of them
    digits or the letters a to f, and the callback does not throw; with the
    default size of 24 bytes the token has 48 characters.  When the source
    fails, the promise is rejected with its error and is never resolved. *)
Theorem getRandomToken_token
    (randomBytes : nat -> exn + list Byte.byte) (size : nat) :
  (forall buffer,
      randomBytes size = inr buffer -> length buffer = size ->
      exists token,
        RandomToken.getRandomToken randomBytes size
        = {| RandomToken.promise := RandomToken.Resolved token; RandomToken.threw := None |}
        /\ String.length token = (2 * size)%nat
        /\ RandomToken.allHexDigits token = true
        /\ (size = RandomToken.defaultSize -> String.length token = 48%nat))
  /\ (forall err,
        randomBytes size = inl err ->
        RandomToken.promise (RandomToken.getRandomToken randomBytes size)
        = RandomToken.RejectedWith err).
Proof.
  split.
  - intros buffer Hsrc Hlen. exists (RandomToken.toHex buffer).
    unfold RandomToken.getRandomToken. rewrite Hsrc. cbn.
    split; [reflexivity|]. rewrite toHex_length, Hlen.
    split; [reflexivity|]. split; [apply toHex_allHexDigits|].
    intros ->. reflexivity.
  - intros err Hsrc. unfold RandomToken.getRandomToken. now rewrite Hsrc.
Qed.

Lemma getRandomToken_token_witness :
  exists token,
    RandomToken.getRandomToken countingSource 24
    = {| RandomToken.promise := RandomToken.Resolved token; RandomToken.threw := None |}
    /\ String.length token = 48%nat.
Proof.
  destruct (proj1 (getRandomToken_token countingSource 24)
              (map (fun n => default Byte.x00 (Byte.of_nat n)) (seq 0 24)))
    as (token & Hrun & Hlen & _); [reflexivity | reflexivity |].
  exists token. split; [exact Hrun | exact Hlen].
Defined.

(** X14: different bytes give different tokens: two runs that resolve with
    the same token were handed the same bytes. *)
Theorem getRandomToken_injective
    (source1 source2 : nat -> exn + list Byte.byte) (size1 size2 : nat)
    (buffer1 buffer2 : list Byte.byte) :
  source1 size1 = inr buffer1 ->
  source2 size2 = inr buffer2 ->
  RandomToken.promise (RandomToken.getRandomToken source1 size1)
  = RandomToken.promise (RandomToken.getRandomToken source2 size2) ->
  buffer1 = buffer2.
Proof.
  unfold RandomToken.getRandomToken. intros -> ->. cbn.
  intros [= H]. now apply toHex_injective.
Qed.

Lemma getRandomToken_injective_witness :
  map (fun n => default Byte.x00 (Byte.of_nat n)) (seq 0 2)
  = map (fun n => default Byte.x00 (Byte.of_nat n)) (seq 0 2).
Proof.
  apply (getRandomToken_injective countingSource countingSource 2 2); reflexivity.
Defined.

(** ** The Postgres overview page *)

Section PostgresFacts.
Import Postgres.

Ltac world_cases w :=
  destruct w as [nm ns logs metrics reg cfg ends pw confirmed deleted tree
                 pgRefresh ctlRefresh first t_reset t_resetFailed t_deleted
                 t_deleteFailed t_refreshFailed];
  cbn [info_name config_namespace logsui_endpoint metricsui_endpoint
       registrationsLastUpdated configLastUpdated endpointsLastUpdated
       promptAndConfirmPassword promptForResourceDeletion server_delete refreshTreeNode
       postgresModel_refresh controllerModel_refresh controllerSettlesFirst
       loc_passwordReset loc_passwordResetFailed loc_resourceDeleted
       loc_resourceDeletionFailed loc_refreshFailed] in *.

(** X15: the handler of the Delete button never deletes unasked and never
    fails.  Whatever the prompt, the delete command and the tree refresh
    answer, the handler ends normally with the button enabled again and
    nothing else on the page changed; the delete command is issued exactly
    when the user confirmed; the tree is refreshed exactly when the delete
    succeeded; the success message is shown exactly when all three
    succeeded, and an error message exactly when one of them was
    rejected. *)
Theorem deleteButton_never_deletes_unasked (w : World) (d : Dashboard) :
  result (deleteButton_onDidClick w d) = inr tt
  /\ dashboard (deleteButton_onDidClick w d) = set_deleteButton true d
  /\ (In (ServerDelete (info_name w)) (actions (deleteButton_onDidClick w d))
      <-> promptForResourceDeletion w = inr true)
  /\ (In RefreshTreeNode (actions (deleteButton_onDidClick w d))
      <-> promptForResourceDeletion w = inr true /\ server_delete w = inr tt)
  /\ (In (ShowInformationMessage (loc_resourceDeleted w (info_name w)))
         (actions (deleteButton_onDidClick w d))
      <-> promptForResourceDeletion w = inr true /\ server_delete w = inr tt
          /\ refreshTreeNode w = inr tt)
  /\ ((exists text, In (ShowErrorMessage text) (actions (deleteButton_onDidClick w d)))
      <-> (exists ex, promptForResourceDeletion w = inl ex)
          \/ (promptForResourceDeletion w = inr true
              /\ ((exists ex, server_delete w = inl ex)
                  \/ (server_delete w = inr tt /\ exists ex, refreshTreeNode w = inl ex)))).
Proof.
  world_cases w. destruct d.
  destruct confirmed as [ex|[|]];
    [ | destruct deleted as [ex|[]]; [| destruct tree as [ex|[]]] | ];
    cbv [deleteButton_onDidClick andThen finally tryCatch update call world pure
         actions dashboard result set_deleteButton app info_name
         promptForResourceDeletion server_delete refreshTreeNode
         loc_resourceDeleted loc_resourceDeletionFailed];
    cbn [In];
    repeat split; try reflexivity; intros;
    repeat match goal with
           | H : _ \/ _ |- _ => destruct H
           | H : _ /\ _ |- _ => destruct H
           | H : exists _, _ |- _ => destruct H
           | H : False |- _ => contradiction H
           end;
    try discriminate; try congruence; eauto 8.
Qed.

(** X16: the handler of the Reset password button never fails.  Whatever
    the prompt answers, the handler ends normally with the button enabled
    again and nothing else on the page changed; the confirmation message is
    shown exactly when the prompt gave a non-empty password, and an error
    message, made from the rejection, exactly when the prompt was
    rejected. *)
Theorem resetPasswordButton_never_fails (w : World) (d : Dashboard) :
  result (resetPasswordButton_onDidClick w d) = inr tt
  /\ dashboard (resetPasswordButton_onDidClick w d) = set_resetPasswordButton true d
  /\ (In (ShowInformationMessage (loc_passwordReset w))
         (actions (resetPasswordButton_onDidClick w d))
      <-> exists password, promptAndConfirmPassword w = inr (Some password)
                           /\ password <> EmptyString)
  /\ (forall text,
        In (ShowErrorMessage text) (actions (resetPasswordButton_onDidClick w d))
        <-> exists ex, promptAndConfirmPassword w = inl ex
                       /\ text = loc_passwordResetFailed w ex).
Proof.
  world_cases w. destruct d.
  destruct pw as [ex|[[|c password]|]];
    cbv [resetPasswordButton_onDidClick andThen finally tryCatch update call world pure
         actions dashboard result set_resetPasswordButton app truthy negb String.eqb
         promptAndConfirmPassword loc_passwordReset loc_passwordResetFailed];
    cbn [In];
    repeat split; try reflexivity; intros;
    repeat match goal with
           | H : _ \/ _ |- _ => destruct H
           | H : _ /\ _ |- _ => destruct H
           | H : exists _, _ |- _ => destruct H
           | H : False |- _ => contradiction H
           end;
    try discriminate; try congruence; eauto 8.
  - match goal with H : ShowErrorMessage _ = ShowErrorMessage _ |- _ => inversion H end.
    eauto.
  - right. left. congruence.
Qed.

(** X17: the handler of the Refresh button never fails and always enables
    the button again.  When the three loading components exist, it turns
    all three on, starts both refreshes, and shows an error message exactly
    when a refresh was rejected, made from the rejection that settled
    first; the spinners stay on either way.  When one of the components
    does not exist yet, no refresh is started and the TypeError is shown as
    the failure. *)
Theorem refreshButton_never_fails (w : World) (d : Dashboard) :
  result (refreshButton_onDidClick w d) = inr tt
  /\ refreshButton (dashboard (refreshButton_onDidClick w d)) = true
  /\ (propertiesLoading d <> None -> kibanaLoading d <> None -> grafanaLoading d <> None ->
      dashboard (refreshButton_onDidClick w d)
      = set_refreshButton true
          (set_grafanaLoading (Some true)
             (set_kibanaLoading (Some true) (set_propertiesLoading (Some true) d)))
      /\ (exists shown,
            actions (refreshButton_onDidClick w d)
            = PostgresModelRefresh :: ControllerModelRefresh :: shown
            /\ forall text,
                 In (ShowErrorMessage text) shown
                 <-> exists ex, refreshRejected w ex /\ text = loc_refreshFailed w ex))
  /\ (propertiesLoading d = None \/ kibanaLoading d = None \/ grafanaLoading d = None ->
      actions (refreshButton_onDidClick w d)
      = [ShowErrorMessage (loc_refreshFailed w TypeError)]).
Proof.
  world_cases w.
  destruct d as [pl kl gl props klink glink init rb db fb].
  split; [|split; [|split]].
  - destruct pl, kl, gl, pgRefresh as [?|[]], ctlRefresh as [?|[]], first; reflexivity.
  - destruct pl, kl, gl, pgRefresh as [?|[]], ctlRefresh as [?|[]], first; reflexivity.
  - cbn [propertiesLoading kibanaLoading grafanaLoading]. intros Hp Hk Hg.
    destruct pl as [pl|]; [|contradiction]. destruct kl as [kl|]; [|contradiction].
    destruct gl as [gl|]; [|contradiction].
    split.
    + destruct pgRefresh as [?|[]], ctlRefresh as [?|[]], first; reflexivity.
    + exists (match pgRefresh, ctlRefresh with
              | inr _, inr _ => []
              | inl ex, inr _ => [ShowErrorMessage (t_refreshFailed ex)]
              | inr _, inl ex => [ShowErrorMessage (t_refreshFailed ex)]
              | inl ex1, inl ex2 =>
                  [ShowErrorMessage (t_refreshFailed (if first then ex2 else ex1))]
              end).
      split.
      * destruct pgRefresh as [?|[]], ctlRefresh as [?|[]], first; reflexivity.
      * intros text. unfold refreshRejected.
        cbn [postgresModel_refresh controllerModel_refresh controllerSettlesFirst
             loc_refreshFailed].
        destruct pgRefresh as [ex1|[]], ctlRefresh as [ex2|[]]; cbn [In]; split;
          try (intros [H | []]; inversion H; eauto);
          try (intros (ex & -> & ->); left; reflexivity);
          try (intros []); try (intros (ex & [] & _)).
        match goal with H : False /\ _ |- _ => destruct H as [[] _] end.
  - cbn [propertiesLoading kibanaLoading grafanaLoading].
    intros H. destruct pl, kl, gl; try reflexivity;
      destruct H as [H | [H | H]]; discriminate H.
Qed.

Lemma refreshButton_never_fails_witness :
  actions (refreshButton_onDidClick (sampleWorld (inr None) (inr false) (inr tt) (inr tt))
             newDashboard)
  = [ShowErrorMessage "Refresh failed"].
Proof.
  apply (proj2 (proj2 (proj2 (refreshButton_never_fails
                                (sampleWorld (inr None) (inr false) (inr tt) (inr tt))
                                newDashboard)))).
  left. reflexivity.
Defined.

Ltac dashboard_cases d H :=
  destruct d as [pl kl gl props klink glink init rb db fb];
  destruct H as (Hpl & Hkl & Hgl & Hprops & Hklink & Hglink);
  cbn [propertiesLoading kibanaLoading grafanaLoading properties kibanaLink grafanaLink] in *;
  destruct pl; [|contradiction]; destruct kl; [|contradiction];
  destruct gl; [|contradiction]; destruct props; [|contradiction];
  destruct klink; [|contradiction]; destruct glink; [|contradiction].

(** X18: the handlers of the model events write to components that must
    exist.  Before [container] has built them, the endpoints handler and the
    registrations handler end in a TypeError and leave the page as it was.
    [container] builds all of them, and on a page where they exist the
    handlers end normally: the endpoints handler gives both links the
    current link as label and as address and stops their two spinners,
    leaving the properties spinner alone; the registrations handler and the
    configuration handler do the same thing: they stop the properties
    spinner. *)
Theorem update_handlers_need_components (w : World) (d : Dashboard) :
  (kibanaLink d = None ->
   result (handleEndpointsUpdated w d) = inl TypeError
   /\ dashboard (handleEndpointsUpdated w d) = d)
  /\ (properties d = None ->
      result (handleRegistrationsUpdated w d) = inl TypeError
      /\ dashboard (handleRegistrationsUpdated w d) = d)
  /\ (result (container w d) = inr tt /\ built (dashboard (container w d))
      /\ initialized (dashboard (container w d)) = true)
  /\ (built d ->
      result (handleEndpointsUpdated w d) = inr tt
      /\ built (dashboard (handleEndpointsUpdated w d))
      /\ kibanaLink (dashboard (handleEndpointsUpdated w d))
         = Some {| label := getKibanaLink w; url := getKibanaLink w |}
      /\ grafanaLink (dashboard (handleEndpointsUpdated w d))
         = Some {| label := getGrafanaLink w; url := getGrafanaLink w |}
      /\ kibanaLoading (dashboard (handleEndpointsUpdated w d)) = Some false
      /\ grafanaLoading (dashboard (handleEndpointsUpdated w d)) = Some false
      /\ propertiesLoading (dashboard (handleEndpointsUpdated w d)) = propertiesLoading d
      /\ result (handleRegistrationsUpdated w d) = inr tt
      /\ built (dashboard (handleRegistrationsUpdated w d))
      /\ propertiesLoading (dashboard (handleRegistrationsUpdated w d)) = Some false
      /\ handleConfigUpdated w d = handleRegistrationsUpdated w d).
Proof.
  split; [|split; [|split]].
  - destruct d. cbn [kibanaLink]. intros ->. split; reflexivity.
  - destruct d. cbn [properties]. intros ->. split; reflexivity.
  - destruct d. repeat split; discriminate.
  - intros Hbuilt. dashboard_cases d Hbuilt.
    repeat split; try reflexivity; discriminate.
Qed.

Lemma update_handlers_need_components_witness :
  result (handleEndpointsUpdated (sampleWorld (inr None) (inr false) (inr tt) (inr tt))
            newDashboard) = inl TypeError
  /\ kibanaLoading
       (dashboard (handleEndpointsUpdated
                     (sampleWorld (inr None) (inr false) (inr tt) (inr tt)) builtDashboard))
     = Some false.
Proof.
  split.
  - apply (proj1 (update_handlers_need_components
                    (sampleWorld (inr None) (inr false) (inr tt) (inr tt)) newDashboard)).
    reflexivity.
  - apply (proj2 (proj2 (proj2 (update_handlers_need_components
                                  (sampleWorld (inr None) (inr false) (inr tt) (inr tt))
                                  builtDashboard)))).
    repeat split; discriminate.
Defined.

(** X19: the spinners' round.  [container] starts the properties spinner
    exactly when neither the registrations nor the configuration have been
    updated yet, and the two link spinners exactly when the endpoints have
    not.  On a built page a click on Refresh turns all three on; the
    endpoints event and the registrations (or configuration) event that
    follow turn all three off again, whatever the refreshes answered, and
    the button is enabled. *)
Theorem spinners_round (w w1 w2 w3 : World) (d : Dashboard) :
  propertiesLoading (dashboard (container w d))
  = Some (negb (registrationsLastUpdated w) && negb (configLastUpdated w))
  /\ kibanaLoading (dashboard (container w d)) = Some (negb (endpointsLastUpdated w))
  /\ grafanaLoading (dashboard (container w d)) = Some (negb (endpointsLastUpdated w))
  /\ (built d ->
      propertiesLoading (dashboard (refreshButton_onDidClick w1 d)) = Some true
      /\ kibanaLoading (dashboard (refreshButton_onDidClick w1 d)) = Some true
      /\ grafanaLoading (dashboard (refreshButton_onDidClick w1 d)) = Some true
      /\ propertiesLoading
           (dashboard (handleRegistrationsUpdated w3
              (dashboard (handleEndpointsUpdated w2
                 (dashboard (refreshButton_onDidClick w1 d)))))) = Some false
      /\ kibanaLoading
           (dashboard (handleRegistrationsUpdated w3
              (dashboard (handleEndpointsUpdated w2
                 (dashboard (refreshButton_onDidClick w1 d)))))) = Some false
      /\ grafanaLoading
           (dashboard (handleRegistrationsUpdated w3
              (dashboard (handleEndpointsUpdated w2
                 (dashboard (refreshButton_onDidClick w1 d)))))) = Some false
      /\ refreshButton
           (dashboard (handleRegistrationsUpdated w3
              (dashboard (handleEndpointsUpdated w2
                 (dashboard (refreshButton_onDidClick w1 d)))))) = true).
Proof.
  split; [|split; [|split]]; try (destruct d; reflexivity).
  intros Hbuilt. dashboard_cases d Hbuilt.
  destruct w1 as [nm ns logs metrics reg cfg ends pw confirmed deleted tree
                  pgRefresh ctlRefresh first t1 t2 t3 t4 t5].
  destruct pgRefresh as [?|[]], ctlRefresh as [?|[]], first; repeat split; reflexivity.
Qed.

Lemma spinners_round_witness :
  propertiesLoading
    (dashboard (refreshButton_onDidClick
                  (sampleWorld (inr None) (inr false) (inr tt) (inl (Rejected "down")))
                  builtDashboard)) = Some true.
Proof.
  apply (proj2 (proj2 (proj2 (spinners_round
                                (sampleWorld (inr None) (inr false) (inr tt) (inr tt))
                                (sampleWorld (inr None) (inr false) (inr tt)
                                   (inl (Rejected "down")))
                                (sampleWorld (inr None) (inr false) (inr tt) (inr tt))
                                (sampleWorld (inr None) (inr false) (inr tt) (inr tt))
                                builtDashboard)))).
  repeat split; discriminate.
Defined.

End PostgresFacts.
